(** * OSV web frontend handlers (gcp/appengine/frontend_handlers.py)

    A shallow embedding of the request handlers of the OSV frontend and
    the properties of its query, link-resolution and admission logic.

    Layout: the Python built-ins the handlers rely on ([Py]), the record
    store ([Ndb]), the handlers themselves ([Frontend]), the rate
    limiter's counting protocol ([RateLimiter]); then the lemmas. *)

From Stdlib Require Import List String Ascii ZArith Lia Bool Arith.
From Stdlib Require Import Sorted Permutation.
Import ListNotations.

Local Open Scope string_scope.
Local Open Scope list_scope.

(* ================================================================= *)
(** ** Python built-ins used by the handlers *)

Module Py.

(** Truthiness of an optional string: [None] and [''] are falsy. *)
Definition truthy (o : option string) : bool :=
  match o with
  | Some s => negb (s =? "")
  | None => false
  end.

(** Lower case of ASCII text: 'A'..'Z' are mapped to 'a'..'z', every
    other character is kept. Header names are compared under it;
    [str_lower] below is [str.lower] on any text. *)
Definition lower_char (c : ascii) : ascii :=
  let n := nat_of_ascii c in
  if (65 <=? n)%nat && (n <=? 90)%nat then ascii_of_nat (n + 32) else c.

Fixpoint lower (s : string) : string :=
  match s with
  | EmptyString => EmptyString
  | String c s' => String (lower_char c) (lower s')
  end.

(** [c in s] for a one-character needle. *)
Fixpoint contains (c : ascii) (s : string) : bool :=
  match s with
  | EmptyString => false
  | String d s' => if (d =? c)%char then true else contains c s'
  end.

(** [s.count(c)] for a one-character needle. *)
Fixpoint count (c : ascii) (s : string) : nat :=
  match s with
  | EmptyString => 0
  | String d s' => if (d =? c)%char then S (count c s') else count c s'
  end.

(** [s.split(sep)] for a one-character separator: every occurrence
    splits, so the result always has at least one part. *)
Fixpoint split (sep : ascii) (s : string) : list string :=
  match s with
  | EmptyString => [EmptyString]
  | String c s' =>
      if (c =? sep)%char then EmptyString :: split sep s'
      else match split sep s' with
           | h :: t => String c h :: t
           | [] => [String c EmptyString]
           end
  end.

(** [s.split(sep, 1)]: at most one split, at the first occurrence. *)
Fixpoint split1 (sep : ascii) (s : string) : list string :=
  match s with
  | EmptyString => [EmptyString]
  | String c s' =>
      if (c =? sep)%char then [EmptyString; s']
      else match split1 sep s' with
           | h :: t => String c h :: t
           | [] => [String c EmptyString]
           end
  end.

(** [s.startswith(p)]. *)
Definition startswith (s p : string) : bool := String.prefix p s.

(** Whitespace stripped by [int()] around an ASCII literal: tab, line
    feed, vertical tab, form feed, carriage return and space. *)
Definition is_space (c : ascii) : bool :=
  let n := nat_of_ascii c in
  ((9 <=? n)%nat && (n <=? 13)%nat) || (n =? 32)%nat.

Fixpoint lstrip (s : string) : string :=
  match s with
  | String c s' => if is_space c then lstrip s' else s
  | EmptyString => EmptyString
  end.

Definition digit_of (c : ascii) : option Z :=
  let n := nat_of_ascii c in
  if (48 <=? n)%nat && (n <=? 57)%nat then Some (Z.of_nat (n - 48)) else None.

(** The digits of a decimal literal, most significant first. A single
    underscore may separate two digits; trailing whitespace ends the
    literal. [prev_digit] tells whether the previous character was a
    digit, [acc] is the value read so far. *)
Fixpoint int_digits (prev_digit : bool) (acc : Z) (s : string) : option Z :=
  match s with
  | EmptyString => if prev_digit then Some acc else None
  | String c s' =>
      match digit_of c with
      | Some d => int_digits true (10 * acc + d) s'
      | None =>
          if (c =? "_")%char then
            if prev_digit then int_digits false acc s' else None
          else if is_space c then
            if prev_digit
            then match lstrip s' with EmptyString => Some acc | _ => None end
            else None
          else None
      end
  end.

(** A decimal literal in ASCII: blanks, an optional sign, the digits,
    blanks. [None] stands for [ValueError]. *)
Definition int_ascii (s : string) : option Z :=
  match lstrip s with
  | String "+" s' => int_digits false 0 s'
  | String "-" s' => option_map Z.opp (int_digits false 0 s')
  | s' => int_digits false 0 s'
  end.

(** [s.isascii()]: every character is below 128. *)
Fixpoint isascii (s : string) : bool :=
  match s with
  | EmptyString => true
  | String c s' => (nat_of_ascii c <? 128)%nat && isascii s'
  end.

(** What depends on the interpreter and its Unicode tables: the value
    [int()] reads from text that is not [plain] (digits and blanks
    beyond ASCII, literals long enough to meet a limit on the number of
    digits; [None] for [ValueError]), and the lower-case form of text
    that is not ASCII. Strings hold the UTF-8 bytes of the text. *)
Record Interpreter := {
  int_other : string -> option Z;
  lower_other : string -> string
}.

(** Text [int()] reads the same way in every interpreter: ASCII only,
    and shorter than the least limit an interpreter may put on the
    number of digits of a literal (640). *)
Definition plain (s : string) : bool :=
  isascii s && (String.length s <? 640)%nat.

(** [int(s)] for a string [s]: [None] stands for [ValueError]. Plain
    text is read as an ASCII literal, any other by the interpreter. *)
Definition int (I : Interpreter) (s : string) : option Z :=
  if plain s then int_ascii s else int_other I s.

(** [s.lower()]: letter by letter on ASCII text, the interpreter's
    lower-case form on any other. *)
Definition str_lower (I : Interpreter) (s : string) : string :=
  if isascii s then lower s else lower_other I s.

(** [sorted(l)] under a boolean order [leb]: a stable insertion sort
    (equal keys keep the order they had in [l]). *)
Fixpoint insert {A} (leb : A -> A -> bool) (x : A) (l : list A) : list A :=
  match l with
  | [] => [x]
  | y :: l' => if leb x y then x :: l else y :: insert leb x l'
  end.

Fixpoint sorted {A} (leb : A -> A -> bool) (l : list A) : list A :=
  match l with
  | [] => []
  | x :: l' => insert leb x (sorted leb l')
  end.

(** [dict.get]-style lookup of the first value stored under a key. *)
Fixpoint get (k : string) (d : list (string * string)) : option string :=
  match d with
  | [] => None
  | (k', v) :: d' => if k' =? k then Some v else get k d'
  end.

End Py.

(* ================================================================= *)
(** ** The [osv] package: entities and response dictionaries *)

Module Osv.

(** Modelled from the spec: the status enumeration of a record
    ([osv.BugStatus]); the handlers name all three members. *)
Inductive BugStatus := UNPROCESSED | PROCESSED | INVALID.

(** Modelled from the spec: [osv.SourceOfTruth]; the handlers only
    compare against [INTERNAL]. *)
Inductive SourceOfTruth := INTERNAL | EXTERNAL.

Definition BugStatus_eqb (a b : BugStatus) : bool :=
  match a, b with
  | UNPROCESSED, UNPROCESSED | PROCESSED, PROCESSED | INVALID, INVALID => true
  | _, _ => false
  end.

(** Modelled from the spec: the Range entity, as one entry of
    [response['affects']['ranges']] with the keys that [add_links] reads
    and writes. The type is always there; a key that may be missing is
    an [option]; [introduced_link] and [fixed_link] hold [Some None]
    when the key is set to [None]. *)
Record AffectedRange := {
  range_type : string;
  repo : option string;
  introduced : option string;
  fixed : option string;
  id : option nat;
  introduced_link : option (option string);
  fixed_link : option (option string)
}.

(** [response['affects']]. *)
Record Affects := {
  ranges : option (list AffectedRange)
}.

(** The dictionary built by [osv.vulnerability_to_dict] and extended
    by [bug_to_response]; [fields] are the keys the handlers never
    touch, [source_label] is the key ['source']. *)
Record Response := {
  fields : list (string * string);
  affects : option Affects;
  isFixed : option bool;
  invalid : option bool;
  source_label : option string;
  source_link : option string
}.

(** Modelled from the spec: the VulnerabilityRecord entity ([osv.Bug]),
    with the properties the handlers use. *)
Record Bug := {
  key : string;
  status : BugStatus;
  public : bool;
  ecosystem : option string;
  search_indices : list string;
  has_affected : bool;
  last_modified : Z;
  is_fixed : bool;
  source_of_truth : SourceOfTruth;
  source : option string
}.

(** [osv.SourceRepository], as far as [add_source_info] looks. *)
Record SourceRepository := {
  link : option string
}.

(** The [osv.PackageTagInfo] entity. *)
Record PackageTagInfo := {
  pti_package : string;
  pti_ecosystem : string;
  tag : string;
  bugs : list string
}.

End Osv.

Import Osv.

(** A VCS viewer of [source_mapper]: the two URL builders the resolver
    calls. *)
Record VcsViewer := {
  get_source_url_for_revision : string -> option string;
  get_source_url_for_revision_diff : string -> string -> option string
}.

(** The collaborators of the handlers that live in other modules
    ([osv], [source_mapper], [rate_limiter], [flask]) and the process
    environment. *)
Record Env := {
  (** [osv.vulnerability_to_dict(bug.to_vulnerability())] *)
  vulnerability_to_dict : Bug -> Response;
  get_source_repository : option string -> option SourceRepository;
  source_path : SourceRepository -> Bug -> string;
  get_vcs_viewer_for_url : string -> option VcsViewer;
  (** [RateLimiter(..., requests_per_min).check_request(ip_addr)]: the
      verdict the limiter gives this request. *)
  limiter_check_request : Z -> string -> bool;
  render_template : string -> string;
  (** [os.getenv('GAE_ENV')] *)
  GAE_ENV : option string;
  (** the interpreter the service runs on *)
  python : Py.Interpreter
}.

(* ================================================================= *)
(** ** The record store: queries of [ndb] over the stored entities *)

Module Ndb.

(** The store holds its entities in key order. *)
Record Datastore := {
  all_bugs : list Bug;
  all_package_tag_infos : list PackageTagInfo
}.

(** Filter nodes the handlers build on [osv.Bug]. Equality on the
    repeated property [search_indices] is membership. *)
Inductive FilterNode :=
| StatusEq (s : BugStatus)
| PublicEq (b : bool)
| SearchIndicesEq (s : string)
| HasAffectedEq (b : bool)
| EcosystemEq (s : string).

Inductive Order := DescLastModified.

Record Query := {
  filters : list FilterNode;
  order_by : option Order
}.

(** [osv.Bug.query(f1, f2, ...)] *)
Definition query (fs : list FilterNode) : Query :=
  {| filters := fs; order_by := None |}.

(** [q.filter(f)] *)
Definition filter (q : Query) (f : FilterNode) : Query :=
  {| filters := filters q ++ [f]; order_by := order_by q |}.

(** [q.order(o)] *)
Definition order (q : Query) (o : Order) : Query :=
  {| filters := filters q; order_by := Some o |}.

Definition matches (f : FilterNode) (b : Bug) : bool :=
  match f with
  | StatusEq s => BugStatus_eqb (status b) s
  | PublicEq p => Bool.eqb (public b) p
  | SearchIndicesEq s => existsb (String.eqb s) (search_indices b)
  | HasAffectedEq a => Bool.eqb (has_affected b) a
  | EcosystemEq e =>
      match ecosystem b with
      | Some e' => e' =? e
      | None => false
      end
  end.

Definition matches_all (fs : list FilterNode) (b : Bug) : bool :=
  forallb (fun f => matches f b) fs.

(** Newest first; [Py.sorted] keeps equal timestamps in key order. *)
Definition newer_first (a b : Bug) : bool :=
  (last_modified b <=? last_modified a)%Z.

(** The full, ordered result sequence of a query. *)
Definition results (ds : Datastore) (q : Query) : list Bug :=
  let matching := List.filter (matches_all (filters q)) (all_bugs ds) in
  match order_by q with
  | Some DescLastModified => Py.sorted newer_first matching
  | None => matching
  end.

(** [q.count()] *)
Definition count (ds : Datastore) (q : Query) : Z :=
  Z.of_nat (List.length (results ds q)).

(** [q.fetch_page(page_size, offset)]: the entities of the page; the
    store refuses a negative offset ([None]). *)
Definition fetch_page (ds : Datastore) (q : Query) (page_size offset : Z)
  : option (list Bug) :=
  if (offset <? 0)%Z then None
  else Some (firstn (Z.to_nat page_size) (skipn (Z.to_nat offset) (results ds q))).

(** [osv.Bug.get_by_id(id)] *)
Definition get_by_id (ds : Datastore) (k : string) : option Bug :=
  find (fun b => key b =? k) (all_bugs ds).

Definition option_string_dec (a b : option string) : {a = b} + {a <> b}.
Proof. decide equality. apply string_dec. Defined.

(** [osv.Bug.query(projection=[osv.Bug.ecosystem], distinct=True)]:
    one projected value per distinct [ecosystem] of the stored
    entities; no filter is attached. *)
Definition distinct_ecosystems (ds : Datastore) : list (option string) :=
  nodup option_string_dec (map ecosystem (all_bugs ds)).

(** [osv.PackageTagInfo.query(package == p, ecosystem == e, bugs > '')] *)
Definition package_tags (ds : Datastore) (p e : string) : list PackageTagInfo :=
  List.filter
    (fun t => (pti_package t =? p) && (pti_ecosystem t =? e)
              && existsb (fun b => negb (b =? "")) (bugs t))
    (all_package_tag_infos ds).

End Ndb.

(* ================================================================= *)
(** ** Effects of a handler: calls made, and how the request ends *)

Inductive Exn := ValueError | BadArgumentError.

(** Calls on the shared backends, in the order a request makes them. *)
Inductive Call :=
| CheckRequest (ip_addr : string)
| QueryCount (q : Ndb.Query)
| QueryFetchPage (q : Ndb.Query) (page_size offset : Z)
| QueryEcosystems
| QueryPackageTags (package ecosystem : string)
| GetById (k : string).

(** A request ends with a value, with [abort(code)], or with an
    exception nobody catches (which the framework reports as a 500). *)
Inductive Outcome (A : Type) :=
| Ok (a : A)
| Abort (code : Z)
| Raise (e : Exn).
Arguments Ok {A} a.
Arguments Abort {A} code.
Arguments Raise {A} e.

Definition M (A : Type) : Type := list Call * Outcome A.

Definition ret {A} (a : A) : M A := ([], Ok a).
Definition abort {A} (code : Z) : M A := ([], Abort code).
Definition raise {A} (e : Exn) : M A := ([], Raise e).
Definition call {A} (c : Call) (a : A) : M A := ([c], Ok a).

Definition bind {A B} (m : M A) (k : A -> M B) : M B :=
  match m with
  | (log, Ok a) => let (log', r) := k a in (log ++ log', r)
  | (log, Abort code) => (log, Abort code)
  | (log, Raise e) => (log, Raise e)
  end.

Notation "x <- m ;; k" := (bind m (fun x => k))
  (at level 61, m at next level, right associativity).
Notation "m ;;; k" := (bind m (fun _ => k))
  (at level 61, right associativity).

(* ================================================================= *)
(** ** The handlers *)

Module Frontend.

(** The routes of the blueprint. *)
Inductive Route :=
| RouteIndex | RouteEcosystems | RouteQuery | RoutePackage | RouteVulnerability.

(** A request to the blueprint: query parameters and headers, each a
    list of pairs looked up by first match. *)
Record Request := {
  route : Route;
  args : list (string * string);
  headers : list (string * string)
}.

(** What a handler returns. *)
Inductive Body :=
| Html (page : string)
| JsonEcosystems (names : list string)
| JsonQuery (total : Z) (items : list Response)
| JsonPackage (tags_with_bugs : list (string * list string))
| JsonVulnerability (response : Response).

Definition _PAGE_SIZE : Z := 16.
Definition _PAGE_LOOKAHEAD : Z := 4.
Definition _REQUESTS_PER_MIN : Z := 30.

(** [request.headers.get(name, default)]; header names compare
    without regard to case. *)
Fixpoint headers_get (name : string) (hs : list (string * string))
  (default : string) : string :=
  match hs with
  | [] => default
  | (n, v) :: hs' =>
      if Py.lower n =? Py.lower name then v else headers_get name hs' default
  end.

Definition _is_prod (E : Env) : bool :=
  Py.startswith (match GAE_ENV E with Some v => v | None => "" end) "standard".

Definition check_rate_limit (E : Env) (req : Request) : M unit :=
  let ip_addr := headers_get "X-Appengine-User-Ip" (headers req) "unknown" in
  admitted <- call (CheckRequest ip_addr)
                   (limiter_check_request E _REQUESTS_PER_MIN ip_addr) ;;
  if negb admitted then abort 429 else ret tt.

(** The functions registered with [blueprint.before_request]. *)
Definition before_request_funcs (E : Env) : list (Request -> M unit) :=
  if _is_prod E then [check_rate_limit E] else [].

Definition index (E : Env) : M Body :=
  ret (Html (render_template E "index.html")).

Definition _commit_to_link (E : Env) (repo_url commit : string) : option string :=
  match get_vcs_viewer_for_url E repo_url with
  | None => None
  | Some vcs =>
      if negb (Py.contains ":" commit) then
        get_source_url_for_revision vcs commit
      else
        match Py.split ":" commit with
        | [start; end_] =>
            if start =? "unknown" then None
            else get_source_url_for_revision_diff vcs start end_
        | _ => None
        end
  end.

(** The body of the loop of [add_links] for the range at position [i]. *)
Definition add_links_range (E : Env) (i : nat) (affected : AffectedRange)
  : AffectedRange :=
  let affected :=
    {| range_type := range_type affected; repo := repo affected;
       introduced := introduced affected; fixed := fixed affected;
       id := Some i;
       introduced_link := introduced_link affected;
       fixed_link := fixed_link affected |} in
  if negb (range_type affected =? "GIT") then affected
  else
    match repo affected with
    | None => affected
    | Some repo_url =>
        if repo_url =? "" then affected
        else
          let affected :=
            match introduced affected with
            | Some commit =>
                if commit =? "" then affected
                else
                  {| range_type := range_type affected; repo := repo affected;
                     introduced := introduced affected; fixed := fixed affected;
                     id := id affected;
                     introduced_link := Some (_commit_to_link E repo_url commit);
                     fixed_link := fixed_link affected |}
            | None => affected
            end in
          match fixed affected with
          | Some commit =>
              if commit =? "" then affected
              else
                {| range_type := range_type affected; repo := repo affected;
                   introduced := introduced affected; fixed := fixed affected;
                   id := id affected;
                   introduced_link := introduced_link affected;
                   fixed_link := Some (_commit_to_link E repo_url commit) |}
          | None => affected
          end
    end.

Fixpoint enumerate {A} (i : nat) (l : list A) : list (nat * A) :=
  match l with
  | [] => []
  | x :: l' => (i, x) :: enumerate (S i) l'
  end.

Definition add_links (E : Env) (bug : Response) : Response :=
  match affects bug with
  | None => bug
  | Some a =>
      match ranges a with
      | None => bug
      | Some rs =>
          {| fields := fields bug;
             affects :=
               Some {| ranges :=
                         Some (map (fun ia => add_links_range E (fst ia) (snd ia))
                                   (enumerate 0 rs)) |};
             isFixed := isFixed bug; invalid := invalid bug;
             source_label := source_label bug;
             source_link := source_link bug |}
      end
  end.

Definition add_source_info (E : Env) (bug : Bug) (response : Response)
  : Response :=
  match source_of_truth bug with
  | INTERNAL =>
      {| fields := fields response; affects := affects response;
         isFixed := isFixed response; invalid := invalid response;
         source_label := Some "INTERNAL";
         source_link := source_link response |}
  | _ =>
      match get_source_repository E (source bug) with
      | None => response
      | Some source_repo =>
          if negb (Py.truthy (link source_repo)) then response
          else
            let src :=
              String.append
                (match link source_repo with Some l => l | None => "" end)
                (source_path E source_repo bug) in
            {| fields := fields response; affects := affects response;
               isFixed := isFixed response; invalid := invalid response;
               source_label := Some src;
               source_link := Some src |}
      end
  end.

Definition bug_to_response (E : Env) (bug : Bug) (detailed : bool) : Response :=
  let response := vulnerability_to_dict E bug in
  let response :=
    {| fields := fields response; affects := affects response;
       isFixed := Some (is_fixed bug);
       invalid := Some (BugStatus_eqb (status bug) INVALID);
       source_label := source_label response;
       source_link := source_link response |} in
  if detailed then add_source_info E bug (add_links E response)
  else response.

Definition ecosystems_handler (ds : Ndb.Datastore) : M Body :=
  query <- call QueryEcosystems (Ndb.distinct_ecosystems ds) ;;
  ret (JsonEcosystems
         (Py.sorted String.leb
            (flat_map (fun e => match e with
                                | Some s => if s =? "" then [] else [s]
                                | None => []
                                end) query))).

Definition query_handler (E : Env) (ds : Ndb.Datastore) (req : Request)
  : M Body :=
  let search_string := Py.get "search" (args req) in
  page <- match Py.get "page" (args req) with
          | None => ret 1%Z
          | Some s => match Py.int (python E) s with
                      | Some n => ret n
                      | None => raise ValueError
                      end
          end ;;
  let affected_only :=
    match Py.get "affected_only" (args req) with
    | Some v => v =? "true"
    | None => false
    end in
  let ecosystem := Py.get "ecosystem" (args req) in
  let query := Ndb.query [Ndb.StatusEq PROCESSED; Ndb.PublicEq true] in
  let query :=
    match search_string with
    | Some s => if s =? "" then query
                else Ndb.filter query
                       (Ndb.SearchIndicesEq (Py.str_lower (python E) s))
    | None => query
    end in
  let query :=
    if affected_only then Ndb.filter query (Ndb.HasAffectedEq true) else query in
  let query :=
    match ecosystem with
    | Some e => if e =? "" then query
                else Ndb.filter query (Ndb.EcosystemEq e)
    | None => query
    end in
  let query := Ndb.order query Ndb.DescLastModified in
  total <- call (QueryCount query) (Ndb.count ds query) ;;
  let offset := ((page - 1) * _PAGE_SIZE)%Z in
  fetched <- call (QueryFetchPage query _PAGE_SIZE offset)
                  (Ndb.fetch_page ds query _PAGE_SIZE offset) ;;
  match fetched with
  | None => raise BadArgumentError
  | Some bugs =>
      ret (JsonQuery total (map (fun bug => bug_to_response E bug false) bugs))
  end.

Definition package_handler (ds : Ndb.Datastore) (req : Request) : M Body :=
  match Py.get "package" (args req) with
  | None => abort 400
  | Some package_path =>
      if package_path =? "" then abort 400
      else
        match Py.split1 "/" package_path with
        | [ecosystem; package] =>
            query <- call (QueryPackageTags package ecosystem)
                          (Ndb.package_tags ds package ecosystem) ;;
            let tags_with_bugs := map (fun t => (tag t, bugs t)) query in
            ret (JsonPackage
                   (Py.sorted (fun a b => String.leb (fst b) (fst a))
                              tags_with_bugs))
        | _ => abort 400
        end
  end.

Definition vulnerability_handler (E : Env) (ds : Ndb.Datastore) (req : Request)
  : M Body :=
  match Py.get "id" (args req) with
  | None => abort 400
  | Some vuln_id =>
      if vuln_id =? "" then abort 400
      else
        found <- call (GetById vuln_id) (Ndb.get_by_id ds vuln_id) ;;
        match found with
        | None => abort 404
        | Some bug =>
            if BugStatus_eqb (status bug) UNPROCESSED then abort 404
            else if negb (public bug) then abort 403
            else ret (JsonVulnerability (bug_to_response E bug true))
        end
  end.

(** The view function of a route. *)
Definition view (E : Env) (ds : Ndb.Datastore) (req : Request) : M Body :=
  match route req with
  | RouteIndex => index E
  | RouteEcosystems => ecosystems_handler ds
  | RouteQuery => query_handler E ds req
  | RoutePackage => package_handler ds req
  | RouteVulnerability => vulnerability_handler E ds req
  end.

Fixpoint run_before (fs : list (Request -> M unit)) (req : Request) : M unit :=
  match fs with
  | [] => ret tt
  | f :: fs' => f req ;;; run_before fs' req
  end.

(** One request through the blueprint: the registered before-request
    functions run first, then the view. *)
Definition handle_request (E : Env) (ds : Ndb.Datastore) (req : Request)
  : M Body :=
  run_before (before_request_funcs E) req ;;; view E ds req.

End Frontend.

(* ================================================================= *)
(** ** The rate limiter and its shared counting backend *)

Module RateLimiter.

(** A counter is named by the client identifier and the index of the
    one-minute window. *)
Definition Key : Type := string * Z.

Definition Key_eqb (a b : Key) : bool :=
  (fst a =? fst b) && (snd a =? snd b)%Z.

(** The counting backend: the current count of every key (0 for a key
    that was never incremented, or whose window has expired). *)
Definition Backend : Type := Key -> nat.


(** Modelled from the spec: the fixed window of a time in seconds,
    [floor(currentTime / windowSize)] with a one-minute window. *)
Definition window_of (now : Z) : Z := (now / 60)%Z.

(** Modelled from the spec: [incrementAndGet(key, windowTtl)] of the
    counting backend, which [rate_limiter] calls; one indivisible
    operation that adds one to the counter and returns the new count. *)
Definition increment_and_get (b : Backend) (k : Key) : nat * Backend :=
  let c := S (b k) in
  (c, fun k' => if Key_eqb k' k then c else b k').

(** Modelled from the spec: [RateLimiter.check_request] of
    [rate_limiter]: increment the counter of [(clientId, window)] and
    admit when the count returned is within the budget. The counter is
    incremented whatever the verdict. *)
Definition check_request (budget : nat) (b : Backend) (clientId : string)
  (now : Z) : bool * Backend :=
  let (c, b') := increment_and_get b (clientId, window_of now) in
  ((c <=? budget)%nat, b').

(** *** Concurrent requests

    A request in flight on some service instance is [Pending] until
    its increment reaches the backend, then holds the count it was
    given ([Counted]), and ends with its verdict ([Decided]). *)
Inductive Phase :=
| Pending
| Counted (count : nat)
| Decided (admitted : bool).

Record Worker := {
  target : Key;
  phase : Phase
}.

Definition System : Type := Backend * list Worker.

Fixpoint set_nth {A} (i : nat) (x : A) (l : list A) : list A :=
  match l, i with
  | [], _ => []
  | _ :: l', O => x :: l'
  | y :: l', S i' => y :: set_nth i' x l'
  end.

(** One step of worker [i]: the atomic increment, or the comparison
    of the count it holds with the budget. A worker that is done, or
    an index that names no worker, leaves the system as it is. *)
Definition advance (budget : nat) (i : nat) (s : System) : System :=
  let (b, ws) := s in
  match nth_error ws i with
  | Some w =>
      match phase w with
      | Pending =>
          let (c, b') := increment_and_get b (target w) in
          (b', set_nth i {| target := target w; phase := Counted c |} ws)
      | Counted c =>
          (b, set_nth i {| target := target w;
                           phase := Decided (c <=? budget)%nat |} ws)
      | Decided _ => s
      end
  | None => s
  end.

(** An interleaving is the sequence of workers that take the steps. *)
Fixpoint run (budget : nat) (schedule : list nat) (s : System) : System :=
  match schedule with
  | [] => s
  | i :: schedule' => run budget schedule' (advance budget i s)
  end.

(** [n] requests issued for the same key, none of which has reached
    the backend yet. *)
Definition issue (k : Key) (n : nat) : list Worker :=
  repeat {| target := k; phase := Pending |} n.




(** Steps a worker still has to take. *)
Definition steps_left (w : Worker) : nat :=
  match phase w with
  | Pending => 2
  | Counted _ => 1
  | Decided _ => 0
  end.

Definition work_left (ws : list Worker) : nat :=
  list_sum (map steps_left ws).

Definition is_decided (w : Worker) : bool :=
  match phase w with Decided _ => true | _ => false end.

Definition verdict_is (v : bool) (k : Key) (w : Worker) : bool :=
  Key_eqb (target w) k &&
  match phase w with Decided a => Bool.eqb a v | _ => false end.

Definition admitted (k : Key) (ws : list Worker) : nat :=
  List.length (List.filter (verdict_is true k) ws).


End RateLimiter.

(* ================================================================= *)
(** ** Vocabulary of the statements *)

Import Frontend.
Import RateLimiter.

(** The page a query request asks for: 1 when the parameter is missing,
    otherwise the integer [int()] reads from its text. *)
Definition page_param (E : Env) (req : Request) (page : Z) : Prop :=
  (Py.get "page" (args req) = None /\ page = 1%Z) \/
  (exists s, Py.get "page" (args req) = Some s /\
             Py.int (python E) s = Some page).

(** [d] is the lower-case form of the ASCII character [c]. *)
Definition lowercase_char (c d : ascii) : Prop :=
  let n := nat_of_ascii c in
  if (65 <=? n)%nat && (n <=? 90)%nat
  then nat_of_ascii d = (n + 32)%nat
  else d = c.

(** [t] is [s] with every ASCII capital replaced by its small letter. *)
Inductive lowercased_ascii : string -> string -> Prop :=
| lowercased_empty : lowercased_ascii EmptyString EmptyString
| lowercased_next (c d : ascii) (s t : string) :
    lowercase_char c d -> lowercased_ascii s t ->
    lowercased_ascii (String c s) (String d t).

(** [t] is the lower-case form of [s]: letter by letter for ASCII
    text, the interpreter's for any other. *)
Definition lowercased (I : Py.Interpreter) (s t : string) : Prop :=
  if Py.isascii s then lowercased_ascii s t else t = Py.lower_other I s.

(** The records a search request selects, in the words of the
    contract of the query engine. *)
Definition selected (E : Env) (req : Request) (b : Bug) : Prop :=
  status b = PROCESSED /\ public b = true /\
  (forall s, Py.get "search" (args req) = Some s -> s <> "" ->
             exists t, lowercased (python E) s t /\
                       In t (search_indices b)) /\
  (Py.get "affected_only" (args req) = Some "true" -> has_affected b = true) /\
  (forall e, Py.get "ecosystem" (args req) = Some e -> e <> "" ->
             ecosystem b = Some e).

(** The query that [query_handler] has built when it reaches the store
    (the base query, the optional filters, the order). *)
Definition built_query (E : Env) (req : Request) : Ndb.Query :=
  let q := Ndb.query [Ndb.StatusEq PROCESSED; Ndb.PublicEq true] in
  let q := match Py.get "search" (args req) with
           | Some s => if s =? "" then q
                       else Ndb.filter q
                              (Ndb.SearchIndicesEq (Py.str_lower (python E) s))
           | None => q
           end in
  let q := if match Py.get "affected_only" (args req) with
              | Some v => v =? "true"
              | None => false
              end
           then Ndb.filter q (Ndb.HasAffectedEq true) else q in
  let q := match Py.get "ecosystem" (args req) with
           | Some e => if e =? "" then q else Ndb.filter q (Ndb.EcosystemEq e)
           | None => q
           end in
  Ndb.order q Ndb.DescLastModified.

(** [listEcosystems()] in the words of the contract: the distinct
    non-empty ecosystems of the PROCESSED records, ascending. *)
Definition listEcosystems_contract (ds : Ndb.Datastore) : list string :=
  Py.sorted String.leb
    (nodup string_dec
       (flat_map (fun b => match ecosystem b with
                           | Some s => if s =? "" then [] else [s]
                           | None => []
                           end)
                 (List.filter (fun b => BugStatus_eqb (status b) PROCESSED)
                              (Ndb.all_bugs ds)))).


Definition newer_or_same (a b : Bug) : Prop :=
  (last_modified b <= last_modified a)%Z.

Definition string_le (a b : string) : Prop := String.leb a b = true.

(** The link a commit reference of range [x] is given in the detailed
    form: for a GIT range with a non-empty repository URL and a
    non-empty reference, what [_commit_to_link] resolves (which may be
    no link); in every other case the key stays as it was ([old]). *)
Definition expected_link (E : Env) (x : AffectedRange)
  (reference : option string) (old : option (option string))
  : option (option string) :=
  if range_type x =? "GIT" then
    match repo x, reference with
    | Some url, Some c =>
        if (url =? "") || (c =? "") then old
        else Some (_commit_to_link E url c)
    | _, _ => old
    end
  else old.

(** Range [x'] is range [x], numbered [i] and with its links resolved. *)
Definition range_linked (E : Env) (i : nat) (x x' : AffectedRange) : Prop :=
  id x' = Some i /\ range_type x' = range_type x /\ repo x' = repo x /\
  introduced x' = introduced x /\ fixed x' = fixed x /\
  introduced_link x' = expected_link E x (introduced x) (introduced_link x) /\
  fixed_link x' = expected_link E x (fixed x) (fixed_link x).

(** The ranges of [r] are those of the dictionary [d], in the same
    number and order, each numbered with its position and with its
    links resolved; without ranges nothing changes. *)
Definition ranges_linked (E : Env) (d r : Response) : Prop :=
  match affects d with
  | Some a =>
      match ranges a with
      | Some rs =>
          exists rs',
            affects r = Some {| ranges := Some rs' |} /\
            List.length rs' = List.length rs /\
            forall i x, nth_error rs i = Some x ->
                        exists x', nth_error rs' i = Some x' /\
                                   range_linked E i x x'
      | None => affects r = affects d
      end
  | None => affects r = affects d
  end.

(** The source attribution of [r]: ["INTERNAL"] and no new link for an
    INTERNAL record; the repository link followed by the record's path,
    as label and as link, for a record whose source repository is known
    and has a link; otherwise what the dictionary [d] had. *)
Definition source_attributed (E : Env) (bug : Bug) (d r : Response) : Prop :=
  match source_of_truth bug with
  | INTERNAL =>
      source_label r = Some "INTERNAL" /\ source_link r = source_link d
  | EXTERNAL =>
      match get_source_repository E (source bug) with
      | Some sr =>
          match link sr with
          | Some l =>
              if l =? "" then
                source_label r = source_label d /\ source_link r = source_link d
              else
                source_label r = Some (l ++ source_path E sr bug)%string /\
                source_link r = Some (l ++ source_path E sr bug)%string
          | None =>
              source_label r = source_label d /\ source_link r = source_link d
          end
      | None =>
          source_label r = source_label d /\ source_link r = source_link d
      end
  end.

(** [r] is the detailed response for [bug]: the fields of its
    dictionary, the two flags of the entity, the ranges with their
    links resolved, and the source attribution. *)
Definition detailed_response (E : Env) (bug : Bug) (r : Response) : Prop :=
  let d := vulnerability_to_dict E bug in
  fields r = fields d /\
  isFixed r = Some (is_fixed bug) /\
  (status bug = INVALID -> invalid r = Some true) /\
  (status bug <> INVALID -> invalid r = Some false) /\
  ranges_linked E d r /\
  source_attributed E bug d r.

(** The items of a query response (none when the request failed). *)
Definition items_of (m : M Body) : list Response :=
  match snd m with
  | Ok (JsonQuery _ items) => items
  | _ => []
  end.

Definition is_check_request (c : Call) : bool :=
  match c with
  | CheckRequest _ => true
  | _ => false
  end.

(** How often a request asked the rate limiter. *)
Definition limiter_calls (m : M Body) : nat :=
  List.length (List.filter is_check_request (fst m)).

(** Tags in descending order. *)
Definition tag_ge (a b : string * list string) : Prop :=
  String.leb (fst b) (fst a) = true.

(* ================================================================= *)
(** ** Sample deployment, used to exercise the statements *)

Module Sample.

Definition github (repo_url : string) : VcsViewer :=
  {| get_source_url_for_revision :=
       fun rev => Some (repo_url ++ "/commit/" ++ rev)%string;
     get_source_url_for_revision_diff :=
       fun a b => Some (repo_url ++ "/compare/" ++ a ++ ".." ++ b)%string |}.

(** Small letters of the capitals of Latin-1 (two bytes each, the first
    195) and of ASCII. *)
Fixpoint latin_lower (s : string) : string :=
  match s with
  | EmptyString => EmptyString
  | String c rest =>
      match rest with
      | String d s' =>
          let n := nat_of_ascii d in
          if (nat_of_ascii c =? 195)%nat && (128 <=? n)%nat && (n <=? 158)%nat
             && negb (n =? 151)%nat
          then String c (String (ascii_of_nat (n + 32)) (latin_lower s'))
          else String (Py.lower_char c) (latin_lower rest)
      | EmptyString => String (Py.lower_char c) EmptyString
      end
  end.

(** A number written in Arabic-Indic digits (two bytes each: 217, then
    160 to 169). *)
Fixpoint arabic_indic (acc : option Z) (s : string) : option Z :=
  match s with
  | EmptyString => acc
  | String c rest =>
      match rest with
      | String d s' =>
          let n := nat_of_ascii d in
          if (nat_of_ascii c =? 217)%nat && (160 <=? n)%nat && (n <=? 169)%nat
          then arabic_indic
                 (Some (10 * match acc with Some a => a | None => 0 end
                        + Z.of_nat (n - 160))%Z) s'
          else None
      | EmptyString => None
      end
  end.

Definition interpreter : Py.Interpreter :=
  {| Py.int_other := arabic_indic None;
     Py.lower_other := latin_lower |}.

(** The words ECLAIR and eclair with an acute accent on the first
    letter, and the digit three in Arabic-Indic script. *)
Definition ECLAIR : string := String "195" (String "137" "CLAIR").
Definition eclair : string := String "195" (String "169" "clair").
Definition three : string := String "217" (String "163" "").

Definition env (gae_env : option string) : Env :=
  {| vulnerability_to_dict :=
       fun bug =>
         {| fields := [("id", key bug)];
            affects :=
              Some {| ranges :=
                        Some [ {| range_type := "GIT";
                                  repo := Some "https://github.com/x/y";
                                  introduced := Some "unknown:def456";
                                  fixed := Some "abc123:def456";
                                  id := None; introduced_link := None;
                                  fixed_link := None |} ] |};
            isFixed := None; invalid := None;
            source_label := None; source_link := None |};
     get_source_repository := fun _ => None;
     source_path := fun _ _ => "";
     get_vcs_viewer_for_url :=
       fun url => if Py.startswith url "https://github.com/"
                  then Some (github url) else None;
     limiter_check_request := fun _ ip => negb (ip =? "203.0.113.9");
     render_template := fun name => name;
     GAE_ENV := gae_env;
     python := interpreter |}.

Definition dev : Env := env None.
Definition prod : Env := env (Some "standard").

Definition bug (k : string) (st : BugStatus) (pub : bool) (eco : option string)
  (modified : Z) : Bug :=
  {| key := k; status := st; public := pub; ecosystem := eco;
     search_indices := [Py.lower k]; has_affected := true;
     last_modified := modified; is_fixed := false;
     source_of_truth := INTERNAL; source := None |}.

Definition ds : Ndb.Datastore :=
  {| Ndb.all_bugs :=
       [ bug "OSV-2020-1" PROCESSED true (Some "PyPI") 30;
         bug "OSV-2020-2" PROCESSED true (Some "npm") 50;
         bug "OSV-2020-3" UNPROCESSED true (Some "Go") 70;
         bug "OSV-2020-4" INVALID true (Some "npm") 20;
         bug "OSV-2020-5" PROCESSED false (Some "PyPI") 90 ];
     Ndb.all_package_tag_infos := [] |}.

(** A store with one record indexed under an accented word. *)
Definition ds_accented : Ndb.Datastore :=
  {| Ndb.all_bugs :=
       [ {| key := "OSV-2021-3"; status := PROCESSED; public := true;
            ecosystem := Some "npm"; search_indices := [eclair; "osv-2021-3"];
            has_affected := false; last_modified := 40; is_fixed := true;
            source_of_truth := EXTERNAL; source := Some "oss-fuzz" |} ];
     Ndb.all_package_tag_infos := [] |}.

(** A store whose only record is still unprocessed. *)
Definition ds_unprocessed : Ndb.Datastore :=
  {| Ndb.all_bugs := [ bug "OSV-2021-9" UNPROCESSED false (Some "crates.io") 10 ];
     Ndb.all_package_tag_infos := [] |}.

Definition request (r : Route) (a h : list (string * string)) : Request :=
  {| route := r; args := a; headers := h |}.


(** A store of package tags: two releases of one package with known
    bugs, one without, and a tag of another package. *)
Definition ds_tags : Ndb.Datastore :=
  {| Ndb.all_bugs := [];
     Ndb.all_package_tag_infos :=
       [ {| pti_package := "@babel/core"; pti_ecosystem := "npm";
            tag := "7.0.0"; bugs := ["OSV-2020-2"] |};
         {| pti_package := "@babel/core"; pti_ecosystem := "npm";
            tag := "7.1.0"; bugs := [] |};
         {| pti_package := "@babel/core"; pti_ecosystem := "npm";
            tag := "7.2.0"; bugs := ["OSV-2020-2"; "OSV-2020-4"] |};
         {| pti_package := "requests"; pti_ecosystem := "PyPI";
            tag := "2.0.0"; bugs := ["OSV-2020-1"] |} ] |}.

(** A response dictionary with a commit range, a range without
    repository and a version range. *)
Definition response : Response :=
  {| fields := [("id", "OSV-2020-2")];
     affects :=
       Some {| ranges :=
                 Some [ {| range_type := "GIT";
                           repo := Some "https://github.com/x/y";
                           introduced := Some "abc123"; fixed := None;
                           id := None; introduced_link := None;
                           fixed_link := None |};
                        {| range_type := "GIT"; repo := None;
                           introduced := Some "abc123"; fixed := Some "def456";
                           id := None; introduced_link := None;
                           fixed_link := None |};
                        {| range_type := "SEMVER"; repo := None;
                           introduced := Some "1.0.0"; fixed := Some "1.0.1";
                           id := None; introduced_link := None;
                           fixed_link := None |} ] |};
     isFixed := None; invalid := None;
     source_label := None; source_link := None |}.

End Sample.

(* ================================================================= *)
(** * Properties *)

(** ** Facts about the built-ins *)

Section PyFacts.

Variable c : ascii.

Lemma contains_count (s : string) :
  Py.contains c s = negb (Py.count c s =? 0)%nat.
Proof.
  induction s as [|d s IH]; simpl; [reflexivity|].
  destruct (d =? c)%char; [reflexivity | exact IH].
Qed.

Lemma count_append (a b : string) :
  Py.count c (a ++ b) = (Py.count c a + Py.count c b)%nat.
Proof.
  induction a as [|d a IH]; simpl; [reflexivity|].
  destruct (d =? c)%char; simpl; rewrite IH; reflexivity.
Qed.

Lemma split_length (s : string) :
  List.length (Py.split c s) = S (Py.count c s).
Proof.
  induction s as [|d s IH]; simpl; [reflexivity|].
  destruct (d =? c)%char; simpl; [now rewrite IH|].
  destruct (Py.split c s) as [|h t]; simpl in *; [discriminate | exact IH].
Qed.

Lemma split_no_sep (s : string) :
  Py.count c s = 0%nat -> Py.split c s = [s].
Proof.
  induction s as [|d s IH]; simpl; [reflexivity|].
  destruct (d =? c)%char; [discriminate|].
  intros H. rewrite (IH H). reflexivity.
Qed.

Lemma split_at_first (a b : string) :
  Py.count c a = 0%nat ->
  Py.split c (a ++ String c b) = a :: Py.split c b.
Proof.
  induction a as [|d a IH]; simpl.
  - intros _. now rewrite Ascii.eqb_refl.
  - destruct (d =? c)%char; [discriminate|].
    intros H. rewrite (IH H). reflexivity.
Qed.

(** A string with a separator in it splits at the first one. *)
Lemma count_pos_decompose (s : string) :
  (0 < Py.count c s)%nat ->
  exists a b, s = (a ++ String c b)%string /\ Py.count c a = 0%nat /\
              Py.count c b = pred (Py.count c s).
Proof.
  induction s as [|d s IH]; simpl; [lia|].
  destruct (d =? c)%char eqn:Hd.
  - intros _. apply Ascii.eqb_eq in Hd. subst d.
    exists EmptyString, s. repeat split; reflexivity.
  - intros H. destruct (IH H) as (a & b & -> & Ha & Hb).
    exists (String d a), b. simpl. rewrite Hd. repeat split; assumption.
Qed.

End PyFacts.

(** ** Commit links *)

Lemma commit_to_link_single (E : Env) (vcs : VcsViewer) (repo_url commit : string) :
  get_vcs_viewer_for_url E repo_url = Some vcs ->
  Py.count ":" commit = 0%nat ->
  _commit_to_link E repo_url commit = get_source_url_for_revision vcs commit.
Proof.
  intros Hv Hc. unfold _commit_to_link. rewrite Hv, contains_count, Hc.
  reflexivity.
Qed.

Lemma commit_to_link_range (E : Env) (vcs : VcsViewer)
  (repo_url start end_ : string) :
  get_vcs_viewer_for_url E repo_url = Some vcs ->
  Py.count ":" start = 0%nat -> Py.count ":" end_ = 0%nat ->
  _commit_to_link E repo_url (start ++ String ":" end_) =
  if start =? "unknown" then None
  else get_source_url_for_revision_diff vcs start end_.
Proof.
  intros Hv Hs He. unfold _commit_to_link.
  rewrite Hv, contains_count, count_append. simpl Py.count.
  rewrite Hs, He. simpl.
  rewrite (split_at_first ":" start end_ Hs), (split_no_sep ":" end_ He).
  reflexivity.
Qed.

Lemma commit_to_link_malformed (E : Env) (repo_url commit : string) :
  (2 <= Py.count ":" commit)%nat ->
  _commit_to_link E repo_url commit = None.
Proof.
  intros Hc. unfold _commit_to_link.
  destruct (get_vcs_viewer_for_url E repo_url) as [vcs|]; [|reflexivity].
  rewrite contains_count.
  destruct (Py.count ":" commit =? 0)%nat eqn:H0;
    [apply Nat.eqb_eq in H0; lia|]. simpl.
  pose proof (split_length ":" commit) as Hl.
  destruct (Py.split ":" commit) as [|a [|b [|x t]]]; simpl in Hl;
    try reflexivity; lia.
Qed.

(** C2. [_commit_to_link] gives no link when no VCS backend resolves
    for the URL; with a backend [vcs] it gives the single-revision URL
    of [vcs] when the reference has no [':'], no link when it has more
    than one, and when it has exactly one, splitting it into
    [start ':' end_], no link if [start] is ["unknown"] and the
    revision-range URL of [vcs] for [(start, end_)] otherwise. *)
Theorem commit_to_link_cases (E : Env) (repo_url commit : string) :
  match get_vcs_viewer_for_url E repo_url with
  | None => _commit_to_link E repo_url commit = None
  | Some vcs =>
      (Py.count ":" commit = 0%nat ->
       _commit_to_link E repo_url commit = get_source_url_for_revision vcs commit)
      /\
      (2 <= Py.count ":" commit ->
       _commit_to_link E repo_url commit = None)%nat
      /\
      (Py.count ":" commit = 1%nat ->
       exists start end_,
         commit = (start ++ ":" ++ end_)%string /\
         Py.count ":" start = 0%nat /\ Py.count ":" end_ = 0%nat /\
         (start = "unknown" -> _commit_to_link E repo_url commit = None) /\
         (start <> "unknown" ->
          _commit_to_link E repo_url commit =
          get_source_url_for_revision_diff vcs start end_))
  end.
Proof.
  destruct (get_vcs_viewer_for_url E repo_url) as [vcs|] eqn:Hv.
  - split; [|split].
    + now apply commit_to_link_single.
    + apply commit_to_link_malformed.
    + intros H1.
      destruct (count_pos_decompose ":" commit) as (a & b & Hab & Ha & Hb);
        [lia|].
      rewrite H1 in Hb. simpl in Hb.
      exists a, b. subst commit. repeat split; try assumption.
      * intros ->. now rewrite (commit_to_link_range E vcs _ _ _ Hv Ha Hb).
      * intros Hne. rewrite (commit_to_link_range E vcs _ _ _ Hv Ha Hb).
        destruct (String.eqb_spec a "unknown"); [contradiction | reflexivity].
  - unfold _commit_to_link. now rewrite Hv.
Qed.

(** The concrete cases of the resolver on a GitHub repository. *)
Lemma commit_to_link_cases_witness :
  _commit_to_link Sample.dev "https://github.com/x/y" "abc123"
    = Some "https://github.com/x/y/commit/abc123" /\
  _commit_to_link Sample.dev "https://github.com/x/y" "a:b:c" = None /\
  (exists start end_,
      "abc123:def456" = (start ++ ":" ++ end_)%string /\
      _commit_to_link Sample.dev "https://github.com/x/y" "abc123:def456"
        = get_source_url_for_revision_diff
            (Sample.github "https://github.com/x/y") start end_) /\
  _commit_to_link Sample.dev "svn://example.org/r" "abc123" = None.
Proof.
  pose proof (commit_to_link_cases Sample.dev "https://github.com/x/y" "abc123") as H1.
  pose proof (commit_to_link_cases Sample.dev "https://github.com/x/y" "a:b:c") as H2.
  pose proof (commit_to_link_cases Sample.dev "https://github.com/x/y" "abc123:def456") as H3.
  pose proof (commit_to_link_cases Sample.dev "svn://example.org/r" "abc123") as H4.
  simpl in H1, H2, H3, H4.
  destruct H1 as (H1 & _). destruct H2 as (_ & H2 & _). destruct H3 as (_ & _ & H3).
  split; [apply H1; reflexivity|].
  split; [apply H2; lia|].
  split; [|exact H4].
  destruct (H3 eq_refl) as (a & b & Hab & Ha & Hb & _ & Hd).
  exists a, b. split; [exact Hab|]. apply Hd.
  intros ->. discriminate Hab.
Defined.

Example commit_to_link_examples :
  _commit_to_link Sample.dev "https://github.com/x/y" "abc123:def456"
    = Some "https://github.com/x/y/compare/abc123..def456" /\
  _commit_to_link Sample.dev "https://github.com/x/y" "unknown:def456" = None /\
  _commit_to_link Sample.dev "https://github.com/x/y" "a:b:c" = None.
Proof. repeat split; reflexivity. Qed.

(** ** Sorting *)

Section SortedFacts.

Context {A : Type} (leb : A -> A -> bool).

Lemma insert_Permutation (x : A) (l : list A) :
  Permutation (Py.insert leb x l) (x :: l).
Proof.
  induction l as [|y l IH]; simpl; [reflexivity|].
  destruct (leb x y); [reflexivity|].
  rewrite IH. apply perm_swap.
Qed.

Lemma sorted_Permutation (l : list A) : Permutation (Py.sorted leb l) l.
Proof.
  induction l as [|x l IH]; simpl; [reflexivity|].
  rewrite insert_Permutation. now constructor.
Qed.

Lemma sorted_length (l : list A) :
  List.length (Py.sorted leb l) = List.length l.
Proof. apply Permutation_length, sorted_Permutation. Qed.

Lemma sorted_In (l : list A) (x : A) : In x (Py.sorted leb l) <-> In x l.
Proof.
  split; apply Permutation_in;
    [|symmetry]; apply sorted_Permutation.
Qed.

Hypothesis leb_total : forall a b, leb a b = true \/ leb b a = true.

Let le (a b : A) : Prop := leb a b = true.

Lemma insert_Sorted (x : A) (l : list A) :
  Sorted le l -> Sorted le (Py.insert leb x l).
Proof.
  induction 1 as [|y l Hl IH Hy]; simpl; [repeat constructor|].
  destruct (leb x y) eqn:Hxy.
  - repeat constructor; assumption.
  - constructor; [exact IH|].
    assert (Hyx : le y x) by (destruct (leb_total x y); congruence).
    destruct l as [|z l]; simpl; [repeat constructor; exact Hyx|].
    destruct (leb x z); constructor; [exact Hyx|].
    now inversion Hy.
Qed.

Lemma sorted_Sorted (l : list A) : Sorted le (Py.sorted leb l).
Proof.
  induction l as [|x l IH]; simpl; [constructor | now apply insert_Sorted].
Qed.

End SortedFacts.

Lemma Sorted_weaken {A} (R R' : A -> A -> Prop) (l : list A) :
  (forall a b, R a b -> R' a b) -> Sorted R l -> Sorted R' l.
Proof.
  intros HR. induction 1 as [|x l Hl IH Hx]; constructor; [exact IH|].
  destruct Hx; constructor. now apply HR.
Qed.

Lemma results_newest_first (ds : Ndb.Datastore) (q : Ndb.Query) :
  Ndb.order_by q = Some Ndb.DescLastModified ->
  StronglySorted newer_or_same (Ndb.results ds q).
Proof.
  intros Ho. unfold Ndb.results. rewrite Ho.
  apply Sorted_StronglySorted.
  - intros a b c Hab Hbc. unfold newer_or_same in *. lia.
  - eapply Sorted_weaken; [|apply (sorted_Sorted Ndb.newer_first)].
    + intros a b Hab. unfold newer_or_same. unfold Ndb.newer_first in Hab. lia.
    + intros a b. unfold Ndb.newer_first. lia.
Qed.

Lemma results_Permutation (ds : Ndb.Datastore) (q : Ndb.Query) :
  Permutation (Ndb.results ds q)
              (List.filter (Ndb.matches_all (Ndb.filters q)) (Ndb.all_bugs ds)).
Proof.
  unfold Ndb.results.
  destruct (Ndb.order_by q) as [[]|]; [apply sorted_Permutation | reflexivity].
Qed.

Lemma results_In (ds : Ndb.Datastore) (q : Ndb.Query) (b : Bug) :
  In b (Ndb.results ds q) <->
  In b (Ndb.all_bugs ds) /\ Ndb.matches_all (Ndb.filters q) b = true.
Proof.
  rewrite <- filter_In. split; apply Permutation_in;
    [|symmetry]; apply results_Permutation.
Qed.

(** ** The search query *)

Lemma BugStatus_eqb_eq (a b : BugStatus) : BugStatus_eqb a b = true <-> a = b.
Proof. destruct a, b; simpl; split; congruence. Qed.

Lemma matches_all_filter (q : Ndb.Query) (f : Ndb.FilterNode) (b : Bug) :
  Ndb.matches_all (Ndb.filters (Ndb.filter q f)) b =
  Ndb.matches_all (Ndb.filters q) b && Ndb.matches f b.
Proof.
  unfold Ndb.matches_all, Ndb.filter. simpl.
  rewrite forallb_app. simpl. now rewrite andb_true_r.
Qed.

Lemma matches_search (s : string) (b : Bug) :
  Ndb.matches (Ndb.SearchIndicesEq s) b = true <-> In s (search_indices b).
Proof.
  simpl. rewrite existsb_exists. split.
  - intros (x & Hx & He). apply String.eqb_eq in He. now subst.
  - intros H. exists s. split; [exact H | apply String.eqb_refl].
Qed.

Lemma matches_ecosystem (e : string) (b : Bug) :
  Ndb.matches (Ndb.EcosystemEq e) b = true <-> ecosystem b = Some e.
Proof.
  simpl. destruct (ecosystem b) as [e'|]; [|split; discriminate].
  rewrite String.eqb_eq. split; congruence.
Qed.

Lemma matches_base (b : Bug) :
  Ndb.matches_all [Ndb.StatusEq PROCESSED; Ndb.PublicEq true] b = true <->
  status b = PROCESSED /\ public b = true.
Proof.
  unfold Ndb.matches_all. simpl. rewrite andb_true_r, andb_true_iff.
  rewrite BugStatus_eqb_eq. destruct (public b); simpl; intuition congruence.
Qed.

Lemma built_query_order (E : Env) (req : Request) :
  Ndb.order_by (built_query E req) = Some Ndb.DescLastModified.
Proof. reflexivity. Qed.

Lemma built_query_base (E : Env) (req : Request) :
  exists extra,
    Ndb.filters (built_query E req) =
    [Ndb.StatusEq PROCESSED; Ndb.PublicEq true] ++ extra.
Proof.
  unfold built_query.
  destruct (Py.get "search" (args req)) as [s|]; [destruct (s =? "")|];
    (destruct (Py.get "affected_only" (args req)) as [v|];
     [destruct (v =? "true")|]);
    (destruct (Py.get "ecosystem" (args req)) as [e|]; [destruct (e =? "")|]);
    simpl; eexists; reflexivity.
Qed.

Lemma lower_char_lowercase (c : ascii) : lowercase_char c (Py.lower_char c).
Proof.
  unfold lowercase_char, Py.lower_char. cbv zeta.
  destruct ((65 <=? nat_of_ascii c)%nat && (nat_of_ascii c <=? 90)%nat) eqn:Hc;
    [|reflexivity].
  apply andb_true_iff in Hc. destruct Hc as [_ Hc]. apply Nat.leb_le in Hc.
  apply nat_ascii_embedding. lia.
Qed.

Lemma lowercase_char_unique (c d : ascii) :
  lowercase_char c d -> d = Py.lower_char c.
Proof.
  unfold lowercase_char, Py.lower_char. cbv zeta.
  destruct ((65 <=? nat_of_ascii c)%nat && (nat_of_ascii c <=? 90)%nat);
    [|trivial].
  intros <-. symmetry. apply ascii_nat_embedding.
Qed.

Lemma lower_lowercased (s : string) : lowercased_ascii s (Py.lower s).
Proof.
  induction s as [|c s IH]; simpl; constructor;
    [apply lower_char_lowercase | exact IH].
Qed.

Lemma lowercased_ascii_unique (s t : string) :
  lowercased_ascii s t -> t = Py.lower s.
Proof.
  induction 1 as [|c d s t Hc _ IH]; simpl; [reflexivity|].
  now rewrite (lowercase_char_unique c d Hc), IH.
Qed.

(** [str.lower] gives the lower-case form, and nothing else is one. *)
Lemma str_lower_lowercased (I : Py.Interpreter) (s t : string) :
  lowercased I s t <-> t = Py.str_lower I s.
Proof.
  unfold lowercased, Py.str_lower. destruct (Py.isascii s); [|reflexivity].
  split; [apply lowercased_ascii_unique | intros ->; apply lower_lowercased].
Qed.

Lemma stage_search (I : Py.Interpreter) (q : Ndb.Query) (o : option string)
  (b : Bug) :
  Ndb.matches_all
    (Ndb.filters
       match o with
       | Some s => if s =? "" then q
                   else Ndb.filter q (Ndb.SearchIndicesEq (Py.str_lower I s))
       | None => q
       end) b = true <->
  Ndb.matches_all (Ndb.filters q) b = true /\
  (forall s, o = Some s -> s <> "" ->
             exists t, lowercased I s t /\ In t (search_indices b)).
Proof.
  destruct o as [s|].
  - destruct (String.eqb_spec s "") as [->|Hs].
    + split; [intros H; split; [exact H|]|tauto].
      intros s [= <-] Hne. now contradiction Hne.
    + rewrite matches_all_filter, andb_true_iff, matches_search.
      split; intros [Hb Hi]; (split; [exact Hb|]).
      * intros s' [= <-] _. exists (Py.str_lower I s).
        split; [now apply str_lower_lowercased | exact Hi].
      * destruct (Hi s eq_refl Hs) as (t & Ht & Hin).
        apply str_lower_lowercased in Ht. now subst t.
  - split; [intros H; split; [exact H|discriminate]|tauto].
Qed.

Lemma stage_affected_only (q : Ndb.Query) (o : option string) (b : Bug) :
  Ndb.matches_all
    (Ndb.filters
       (if match o with Some v => v =? "true" | None => false end
        then Ndb.filter q (Ndb.HasAffectedEq true) else q)) b = true <->
  Ndb.matches_all (Ndb.filters q) b = true /\
  (o = Some "true" -> has_affected b = true).
Proof.
  destruct o as [v|].
  - destruct (String.eqb_spec v "true") as [->|Hv].
    + rewrite matches_all_filter, andb_true_iff. simpl Ndb.matches.
      destruct (has_affected b); simpl; intuition congruence.
    + split; [intros H; split; [exact H|congruence]|tauto].
  - split; [intros H; split; [exact H|discriminate]|tauto].
Qed.

Lemma stage_ecosystem (q : Ndb.Query) (o : option string) (b : Bug) :
  Ndb.matches_all
    (Ndb.filters
       match o with
       | Some e => if e =? "" then q else Ndb.filter q (Ndb.EcosystemEq e)
       | None => q
       end) b = true <->
  Ndb.matches_all (Ndb.filters q) b = true /\
  (forall e, o = Some e -> e <> "" -> ecosystem b = Some e).
Proof.
  destruct o as [e|].
  - destruct (String.eqb_spec e "") as [->|He].
    + split; [intros H; split; [exact H|]|tauto].
      intros e [= <-] Hne. now contradiction Hne.
    + rewrite matches_all_filter, andb_true_iff, matches_ecosystem.
      split; intros [Hb Hi]; (split; [exact Hb|]).
      * now intros e' [= <-] _.
      * now apply Hi.
  - split; [intros H; split; [exact H|discriminate]|tauto].
Qed.

Lemma built_query_selected (E : Env) (req : Request) (b : Bug) :
  Ndb.matches_all (Ndb.filters (built_query E req)) b = true <-> selected E req b.
Proof.
  unfold built_query, selected. cbv zeta.
  change (Ndb.filters (Ndb.order ?q _)) with (Ndb.filters q).
  rewrite stage_ecosystem, stage_affected_only, stage_search, matches_base.
  tauto.
Qed.

Lemma query_handler_page (E : Env) (ds : Ndb.Datastore) (req : Request) (page : Z) :
  page_param E req page ->
  query_handler E ds req =
  ([QueryCount (built_query E req);
    QueryFetchPage (built_query E req) _PAGE_SIZE ((page - 1) * _PAGE_SIZE)],
   match Ndb.fetch_page ds (built_query E req) _PAGE_SIZE ((page - 1) * _PAGE_SIZE) with
   | Some bugs =>
       Ok (JsonQuery (Ndb.count ds (built_query E req))
                     (map (fun bug => bug_to_response E bug false) bugs))
   | None => Raise BadArgumentError
   end).
Proof.
  intros [[Hn ->] | (s & Hs & Hp)]; unfold query_handler; rewrite Hn || rewrite Hs, Hp;
    fold (built_query E req); cbn [bind ret call raise app];
    destruct (Ndb.fetch_page ds (built_query E req) _ _); reflexivity.
Qed.

Lemma query_handler_bad_page (E : Env) (ds : Ndb.Datastore) (req : Request) (s : string) :
  Py.get "page" (args req) = Some s -> Py.int (python E) s = None ->
  query_handler E ds req = ([], Raise ValueError).
Proof. intros Hs Hp. unfold query_handler. rewrite Hs, Hp. reflexivity. Qed.

Lemma fetch_page_In (ds : Ndb.Datastore) (q : Ndb.Query) (size offset : Z)
  (bugs : list Bug) :
  Ndb.fetch_page ds q size offset = Some bugs ->
  forall b, In b bugs -> In b (Ndb.results ds q).
Proof.
  unfold Ndb.fetch_page. destruct (offset <? 0)%Z; [discriminate|].
  intros [= <-] b Hb.
  rewrite <- (firstn_skipn (Z.to_nat offset) (Ndb.results ds q)).
  apply in_or_app. right.
  rewrite <- (firstn_skipn (Z.to_nat size) (skipn _ _)).
  apply in_or_app. now left.
Qed.

Lemma fetch_page_from (ds : Ndb.Datastore) (q : Ndb.Query) (page : Z) :
  (1 <= page)%Z ->
  Ndb.fetch_page ds q _PAGE_SIZE ((page - 1) * _PAGE_SIZE) =
  Some (firstn 16 (skipn (Z.to_nat ((page - 1) * _PAGE_SIZE)) (Ndb.results ds q))).
Proof.
  intros Hp. unfold Ndb.fetch_page, _PAGE_SIZE.
  destruct (Z.ltb_spec ((page - 1) * 16) 0); [lia | reflexivity].
Qed.

(** C1. Whatever the request, a [/backend/query] response is built from
    one query whose filters start with [status == PROCESSED] and
    [public == True], before any optional filter; every item of the
    response is the projection of a stored record with status PROCESSED
    and [public] true. *)
Theorem query_items_processed_public (E : Env) (ds : Ndb.Datastore)
  (req : Request) (log : list Call) (total : Z) (items : list Response) :
  query_handler E ds req = (log, Ok (JsonQuery total items)) ->
  (exists q extra offset,
      log = [QueryCount q; QueryFetchPage q _PAGE_SIZE offset] /\
      Ndb.filters q = [Ndb.StatusEq PROCESSED; Ndb.PublicEq true] ++ extra) /\
  (exists found,
      items = map (fun bug => bug_to_response E bug false) found /\
      Forall (fun b => In b (Ndb.all_bugs ds) /\
                       status b = PROCESSED /\ public b = true) found).
Proof.
  intros H.
  assert (Hpage : exists page, page_param E req page).
  { destruct (Py.get "page" (args req)) as [s|] eqn:Hs.
    - destruct (Py.int (python E) s) as [n|] eqn:Hn.
      + exists n. right. now exists s.
      + rewrite (query_handler_bad_page E ds req s Hs Hn) in H. discriminate.
    - exists 1%Z. now left. }
  destruct Hpage as (page & Hp).
  rewrite (query_handler_page E ds req page Hp) in H.
  destruct (Ndb.fetch_page ds (built_query E req) _ _) as [found|] eqn:Hf;
    [|discriminate].
  injection H as <- <- <-. split.
  - destruct (built_query_base E req) as (extra & Hx).
    now exists (built_query E req), extra, ((page - 1) * _PAGE_SIZE)%Z.
  - exists found. split; [reflexivity|].
    apply Forall_forall. intros b Hb.
    apply (fetch_page_In _ _ _ _ _ Hf), results_In in Hb.
    destruct Hb as (Hin & Hm). apply built_query_selected in Hm.
    destruct Hm as (Hs & Hpub & _). now repeat split.
Qed.

Lemma query_items_processed_public_witness :
  exists found,
    [bug_to_response Sample.dev
       (Sample.bug "OSV-2020-2" PROCESSED true (Some "npm") 50) false;
     bug_to_response Sample.dev
       (Sample.bug "OSV-2020-1" PROCESSED true (Some "PyPI") 30) false]
    = map (fun bug => bug_to_response Sample.dev bug false) found /\
    Forall (fun b => In b (Ndb.all_bugs Sample.ds) /\
                     status b = PROCESSED /\ public b = true) found.
Proof.
  refine (proj2 (query_items_processed_public Sample.dev Sample.ds
                   (Sample.request RouteQuery [] []) _ 2%Z _ _)).
  reflexivity.
Defined.

(** C3. For a request for page [page >= 1], the search counts and
    fetches under one and the same query: the matching records ordered
    by descending [last_modified]; the total is their number, the items
    are the (at most 16) records found from offset [(page - 1) * 16] on,
    none when the offset reaches the total. *)
Theorem query_page_and_total (E : Env) (ds : Ndb.Datastore) (req : Request)
  (page : Z) :
  page_param E req page -> (1 <= page)%Z ->
  let q := built_query E req in
  let ordered := Ndb.results ds q in
  let total := Z.of_nat (List.length ordered) in
  let offset := ((page - 1) * _PAGE_SIZE)%Z in
  let found := firstn 16 (skipn (Z.to_nat offset) ordered) in
  query_handler E ds req =
    ([QueryCount q; QueryFetchPage q _PAGE_SIZE offset],
     Ok (JsonQuery total (map (fun bug => bug_to_response E bug false) found)))
  /\ StronglySorted newer_or_same ordered
  /\ Permutation ordered
       (List.filter (Ndb.matches_all (Ndb.filters q)) (Ndb.all_bugs ds))
  /\ Z.of_nat (List.length found) = Z.max 0 (Z.min _PAGE_SIZE (total - offset))
  /\ (List.length found <= 16)%nat
  /\ ((total <= offset)%Z -> found = []).
Proof.
  intros Hp H1 q ordered total offset found.
  assert (Hlen : List.length found =
                 Nat.min 16 (List.length ordered - Z.to_nat offset)).
  { unfold found. now rewrite length_firstn, length_skipn. }
  split; [|split; [|split; [|split; [|split]]]].
  - rewrite (query_handler_page E ds req page Hp).
    fold q. rewrite (fetch_page_from ds q page H1). reflexivity.
  - apply results_newest_first, built_query_order.
  - apply results_Permutation.
  - rewrite Hlen. unfold total, offset, _PAGE_SIZE in *. lia.
  - rewrite Hlen. lia.
  - intros Ht. apply length_zero_iff_nil. rewrite Hlen.
    unfold total, offset, _PAGE_SIZE in *. lia.
Qed.

Lemma query_page_and_total_witness :
  query_handler Sample.dev Sample.ds
    (Sample.request RouteQuery [("page", "2")] []) =
  ([QueryCount (built_query Sample.dev (Sample.request RouteQuery [("page", "2")] []));
    QueryFetchPage (built_query Sample.dev (Sample.request RouteQuery [("page", "2")] []))
                   16 16],
   Ok (JsonQuery 2 [])).
Proof.
  refine (proj1 (query_page_and_total Sample.dev Sample.ds
                   (Sample.request RouteQuery [("page", "2")] []) 2 _ _)).
  - right. exists "2". split; reflexivity.
  - lia.
Defined.

(** C7. A search request (for a page [>= 1]) is answered, whatever
    filters it carries: the query matches exactly the records that are
    PROCESSED and public and, when a search token is given, have its
    lower-cased form among their [search_indices]; when [affected_only]
    is ["true"], have [has_affected]; when an ecosystem is given, have
    exactly that ecosystem. A filter that is absent or empty puts no
    condition. *)
Theorem query_optional_filters (E : Env) (ds : Ndb.Datastore) (req : Request)
  (page : Z) :
  page_param E req page -> (1 <= page)%Z ->
  exists q total items,
    query_handler E ds req =
      ([QueryCount q; QueryFetchPage q _PAGE_SIZE ((page - 1) * _PAGE_SIZE)],
       Ok (JsonQuery total items)) /\
    (forall b, Ndb.matches_all (Ndb.filters q) b = true <-> selected E req b) /\
    (forall b, In b (Ndb.results ds q) <->
               In b (Ndb.all_bugs ds) /\ selected E req b) /\
    total = Z.of_nat (List.length (Ndb.results ds q)) /\
    exists found,
      items = map (fun bug => bug_to_response E bug false) found /\
      Forall (fun b => In b (Ndb.all_bugs ds) /\ selected E req b) found.
Proof.
  intros Hp H1.
  pose proof (query_handler_page E ds req page Hp) as Hq.
  pose proof (fetch_page_from ds (built_query E req) page H1) as Hf.
  rewrite Hf in Hq.
  eexists (built_query E req), _, _. split; [exact Hq|].
  split; [apply built_query_selected|].
  assert (Hin : forall b, In b (Ndb.results ds (built_query E req)) <->
                          In b (Ndb.all_bugs ds) /\ selected E req b).
  { intros b. rewrite results_In, built_query_selected. reflexivity. }
  split; [exact Hin|]. split; [reflexivity|].
  eexists. split; [reflexivity|].
  apply Forall_forall. intros b Hb.
  apply Hin. exact (fetch_page_In _ _ _ _ _ Hf b Hb).
Qed.

Lemma query_optional_filters_witness :
  (exists q total items,
      query_handler Sample.dev Sample.ds
        (Sample.request RouteQuery
           [("search", "OSV-2020-1"); ("ecosystem", "PyPI"); ("affected_only", "")]
           []) =
        ([QueryCount q; QueryFetchPage q 16 0], Ok (JsonQuery total items)) /\
      total = 1%Z /\ List.length items = 1%nat) /\
  (exists q total items,
      query_handler Sample.dev Sample.ds_accented
        (Sample.request RouteQuery [("search", Sample.ECLAIR)] []) =
        ([QueryCount q; QueryFetchPage q 16 0], Ok (JsonQuery total items)) /\
      Ndb.filters q = [Ndb.StatusEq PROCESSED; Ndb.PublicEq true;
                       Ndb.SearchIndicesEq Sample.eclair] /\
      total = 1%Z) /\
  (exists q total items,
      query_handler Sample.dev Sample.ds
        (Sample.request RouteQuery [("search", "osv-2020-9")] []) =
        ([QueryCount q; QueryFetchPage q 16 0], Ok (JsonQuery total items)) /\
      total = 0%Z).
Proof.
  split; [|split].
  - destruct (query_optional_filters Sample.dev Sample.ds
                (Sample.request RouteQuery
                   [("search", "OSV-2020-1"); ("ecosystem", "PyPI");
                    ("affected_only", "")] []) 1)
      as (q & total & items & Hrun & _ & _ & Ht & _).
    + left. split; reflexivity.
    + lia.
    + exists q, total, items. split; [exact Hrun|].
      vm_compute in Hrun. injection Hrun as _ _ <- <-. split; reflexivity.
  - destruct (query_optional_filters Sample.dev Sample.ds_accented
                (Sample.request RouteQuery [("search", Sample.ECLAIR)] []) 1)
      as (q & total & items & Hrun & _ & _ & Ht & _).
    + left. split; reflexivity.
    + lia.
    + exists q, total, items. split; [exact Hrun|].
      vm_compute in Hrun. injection Hrun as <- _ <- _. split; reflexivity.
  - destruct (query_optional_filters Sample.dev Sample.ds
                (Sample.request RouteQuery [("search", "osv-2020-9")] []) 1)
      as (q & total & items & Hrun & _ & _ & Ht & _).
    + left. split; reflexivity.
    + lia.
    + exists q, total, items. split; [exact Hrun|].
      vm_compute in Hrun. injection Hrun as _ _ <- _. reflexivity.
Defined.

(** C5 (the handler at two malformed pages). A page that is not a
    number ends the request with an uncaught [ValueError], not with
    [abort(400)]; page 0 is not refused at all: the count query is
    issued, and the page is then requested from the store at offset
    -16. *)
Theorem query_handler_malformed_page (E : Env) (ds : Ndb.Datastore) :
  query_handler E ds (Sample.request RouteQuery [("page", "abc")] []) =
    ([], Raise ValueError) /\
  exists q,
    query_handler E ds (Sample.request RouteQuery [("page", "0")] []) =
      ([QueryCount q; QueryFetchPage q 16 (-16)], Raise BadArgumentError).
Proof.
  split; [reflexivity|].
  eexists. reflexivity.
Qed.

(** ** Single-record fetch *)

Lemma add_links_invalid (E : Env) (r : Response) :
  invalid (add_links E r) = invalid r.
Proof.
  unfold add_links. destruct (affects r) as [a|]; [|reflexivity].
  destruct (ranges a); reflexivity.
Qed.

Lemma add_source_info_invalid (E : Env) (bug : Bug) (r : Response) :
  invalid (add_source_info E bug r) = invalid r.
Proof.
  unfold add_source_info. destruct (source_of_truth bug); [reflexivity|].
  destruct (get_source_repository E (source bug)) as [sr|]; [|reflexivity].
  destruct (negb (Py.truthy (link sr))); reflexivity.
Qed.

Lemma bug_to_response_invalid (E : Env) (bug : Bug) (detailed : bool) :
  invalid (bug_to_response E bug detailed) =
  Some (BugStatus_eqb (status bug) INVALID).
Proof.
  unfold bug_to_response. destruct detailed; [|reflexivity].
  now rewrite add_source_info_invalid, add_links_invalid.
Qed.

Lemma vulnerability_handler_found (E : Env) (ds : Ndb.Datastore) (req : Request)
  (vuln_id : string) :
  Py.get "id" (args req) = Some vuln_id -> vuln_id <> "" ->
  vulnerability_handler E ds req =
  ([GetById vuln_id],
   match Ndb.get_by_id ds vuln_id with
   | None => Abort 404
   | Some bug =>
       if BugStatus_eqb (status bug) UNPROCESSED then Abort 404
       else if negb (public bug) then Abort 403
       else Ok (JsonVulnerability (bug_to_response E bug true))
   end).
Proof.
  intros Hid Hne. unfold vulnerability_handler. rewrite Hid.
  destruct (String.eqb_spec vuln_id ""); [contradiction|].
  cbn [bind call app].
  destruct (Ndb.get_by_id ds vuln_id) as [bug|]; [|reflexivity].
  destruct (BugStatus_eqb (status bug) UNPROCESSED); [reflexivity|].
  destruct (negb (public bug)); reflexivity.
Qed.

(** C6. The single-record fetch ends with 400, before the store is
    asked, when the [id] parameter is missing (absent or empty);
    otherwise it looks the record up and ends with 404 when there is
    none or its status is UNPROCESSED, else with 403 when it is not
    public, else with the detailed response. *)
Theorem vulnerability_handler_outcomes (E : Env) (ds : Ndb.Datastore)
  (req : Request) :
  (Py.truthy (Py.get "id" (args req)) = false ->
   vulnerability_handler E ds req = ([], Abort 400)) /\
  (forall vuln_id,
      Py.get "id" (args req) = Some vuln_id -> vuln_id <> "" ->
      (Ndb.get_by_id ds vuln_id = None ->
       vulnerability_handler E ds req = ([GetById vuln_id], Abort 404)) /\
      (forall bug,
          Ndb.get_by_id ds vuln_id = Some bug ->
          (status bug = UNPROCESSED ->
           vulnerability_handler E ds req = ([GetById vuln_id], Abort 404)) /\
          (status bug <> UNPROCESSED -> public bug = false ->
           vulnerability_handler E ds req = ([GetById vuln_id], Abort 403)) /\
          (status bug <> UNPROCESSED -> public bug = true ->
           vulnerability_handler E ds req =
           ([GetById vuln_id],
            Ok (JsonVulnerability (bug_to_response E bug true)))))).
Proof.
  split.
  - unfold vulnerability_handler, Py.truthy.
    destruct (Py.get "id" (args req)) as [v|]; [|reflexivity].
    destruct (v =? ""); [reflexivity | discriminate].
  - intros vuln_id Hid Hne.
    rewrite (vulnerability_handler_found E ds req vuln_id Hid Hne).
    split; [now intros ->|].
    intros bug ->. split; [|split].
    + now intros ->.
    + intros Hs ->. destruct (status bug); simpl; congruence.
    + intros Hs ->. destruct (status bug); simpl; congruence.
Qed.

Lemma vulnerability_handler_outcomes_witness :
  vulnerability_handler Sample.dev Sample.ds
    (Sample.request RouteVulnerability [] []) = ([], Abort 400) /\
  vulnerability_handler Sample.dev Sample.ds
    (Sample.request RouteVulnerability [("id", "OSV-2020-3")] []) =
    ([GetById "OSV-2020-3"], Abort 404) /\
  vulnerability_handler Sample.dev Sample.ds
    (Sample.request RouteVulnerability [("id", "OSV-2020-5")] []) =
    ([GetById "OSV-2020-5"], Abort 403).
Proof.
  split; [|split].
  - apply (proj1 (vulnerability_handler_outcomes Sample.dev Sample.ds
                    (Sample.request RouteVulnerability [] []))).
    reflexivity.
  - refine (proj1 (proj2 (proj2 (vulnerability_handler_outcomes Sample.dev Sample.ds
              (Sample.request RouteVulnerability [("id", "OSV-2020-3")] []))
              "OSV-2020-3" eq_refl _) _ eq_refl) eq_refl).
    discriminate.
  - refine (proj1 (proj2 (proj2 (proj2 (vulnerability_handler_outcomes
              Sample.dev Sample.ds
              (Sample.request RouteVulnerability [("id", "OSV-2020-5")] []))
              "OSV-2020-5" eq_refl _) _ eq_refl)) _ eq_refl).
    + discriminate.
    + discriminate.
Defined.

(** ** Admission *)

Lemma headers_get_absent (name default : string) (hs : list (string * string)) :
  (forall n v, In (n, v) hs -> Py.lower n <> Py.lower name) ->
  headers_get name hs default = default.
Proof.
  induction hs as [|[n v] hs IH]; simpl; [reflexivity|].
  intros H. destruct (String.eqb_spec (Py.lower n) (Py.lower name)) as [He|_].
  - exfalso. exact (H n v (or_introl eq_refl) He).
  - apply IH. intros n' v' Hin. apply (H n' v'). now right.
Qed.

Lemma headers_get_present (name default n v : string)
  (before after : list (string * string)) :
  (forall n' v', In (n', v') before -> Py.lower n' <> Py.lower name) ->
  Py.lower n = Py.lower name ->
  headers_get name (before ++ (n, v) :: after) default = v.
Proof.
  induction before as [|[n' v'] before IH]; simpl; intros H Hn.
  - now rewrite Hn, String.eqb_refl.
  - destruct (String.eqb_spec (Py.lower n') (Py.lower name)) as [He|_].
    + exfalso. exact (H n' v' (or_introl eq_refl) He).
    + apply IH; [|exact Hn]. intros a b Hin. apply (H a b). now right.
Qed.

Lemma handle_request_prod (E : Env) (ds : Ndb.Datastore) (req : Request) :
  _is_prod E = true ->
  handle_request E ds req =
  let ip_addr := headers_get "X-Appengine-User-Ip" (headers req) "unknown" in
  if limiter_check_request E _REQUESTS_PER_MIN ip_addr
  then (CheckRequest ip_addr :: fst (view E ds req), snd (view E ds req))
  else ([CheckRequest ip_addr], Abort 429).
Proof.
  intros Hprod. unfold handle_request, before_request_funcs. rewrite Hprod.
  unfold run_before, check_rate_limit. cbv zeta.
  destruct (limiter_check_request E _ _); cbn [bind call ret abort negb app].
  - destruct (view E ds req) as [log out]. reflexivity.
  - reflexivity.
Qed.

(** C8. In the production deployment every request to the blueprint
    first asks the rate limiter, under the client identifier read from
    the [X-Appengine-User-Ip] header (["unknown"] when the request has
    no such header): a refused request ends with 429 and nothing else
    is called; an admitted one goes on to its view. *)
Theorem rate_limit_before_view (E : Env) (ds : Ndb.Datastore) (req : Request) :
  _is_prod E = true ->
  let ip_addr := headers_get "X-Appengine-User-Ip" (headers req) "unknown" in
  ((forall n v, In (n, v) (headers req) ->
                Py.lower n <> Py.lower "X-Appengine-User-Ip") ->
   ip_addr = "unknown") /\
  (forall before n v after,
      headers req = before ++ (n, v) :: after ->
      (forall n' v', In (n', v') before ->
                     Py.lower n' <> Py.lower "X-Appengine-User-Ip") ->
      Py.lower n = Py.lower "X-Appengine-User-Ip" ->
      ip_addr = v) /\
  (limiter_check_request E _REQUESTS_PER_MIN ip_addr = false ->
   handle_request E ds req = ([CheckRequest ip_addr], Abort 429)) /\
  (limiter_check_request E _REQUESTS_PER_MIN ip_addr = true ->
   handle_request E ds req =
   (CheckRequest ip_addr :: fst (view E ds req), snd (view E ds req))).
Proof.
  intros Hprod ip_addr. split; [|split; [|split]].
  - apply headers_get_absent.
  - intros before n v after Hh Hb Hn. unfold ip_addr. rewrite Hh.
    now apply headers_get_present.
  - intros Hc. rewrite (handle_request_prod E ds req Hprod). cbv zeta.
    fold ip_addr. now rewrite Hc.
  - intros Hc. rewrite (handle_request_prod E ds req Hprod). cbv zeta.
    fold ip_addr. now rewrite Hc.
Qed.

Lemma rate_limit_before_view_witness :
  handle_request Sample.prod Sample.ds
    (Sample.request RouteEcosystems [] [("x-appengine-user-ip", "203.0.113.9")])
  = ([CheckRequest "203.0.113.9"], Abort 429) /\
  handle_request Sample.prod Sample.ds (Sample.request RouteEcosystems [] [])
  = ([CheckRequest "unknown"; QueryEcosystems],
     Ok (JsonEcosystems ["Go"; "PyPI"; "npm"])).
Proof.
  split.
  - refine (proj1 (proj2 (proj2 (rate_limit_before_view Sample.prod Sample.ds
              (Sample.request RouteEcosystems []
                 [("x-appengine-user-ip", "203.0.113.9")]) eq_refl))) eq_refl).
  - refine (proj2 (proj2 (proj2 (rate_limit_before_view Sample.prod Sample.ds
              (Sample.request RouteEcosystems [] []) eq_refl))) eq_refl).
Defined.

(** Outside production no limiter is consulted. *)
Lemma handle_request_dev (E : Env) (ds : Ndb.Datastore) (req : Request) :
  _is_prod E = false -> handle_request E ds req = view E ds req.
Proof.
  intros Hdev. unfold handle_request, before_request_funcs. rewrite Hdev.
  simpl. destruct (view E ds req). reflexivity.
Qed.

(** ** Ecosystems *)

Lemma string_leb_trans (a b c : string) :
  String.leb a b = true -> String.leb b c = true -> String.leb a c = true.
Proof.
  unfold String.leb. revert b c.
  induction a as [|x a IH]; intros [|y b] [|z c]; simpl;
    try congruence; try reflexivity.
  unfold Ascii.compare.
  destruct (N.compare_spec (N_of_ascii x) (N_of_ascii y)) as [Hxy|Hxy|Hxy];
    destruct (N.compare_spec (N_of_ascii y) (N_of_ascii z)) as [Hyz|Hyz|Hyz];
    destruct (N.compare_spec (N_of_ascii x) (N_of_ascii z)) as [Hxz|Hxz|Hxz];
    try congruence; try reflexivity; try lia.
  apply IH.
Qed.

Lemma sorted_strings (l : list string) :
  StronglySorted string_le (Py.sorted String.leb l).
Proof.
  apply Sorted_StronglySorted.
  - intros a b c. apply string_leb_trans.
  - apply sorted_Sorted. apply String.leb_total.
Qed.

Lemma NoDup_named (l : list (option string)) :
  NoDup l ->
  NoDup (flat_map (fun e => match e with
                            | Some s => if s =? "" then [] else [s]
                            | None => []
                            end) l).
Proof.
  induction 1 as [|e l Hnotin Hnd IH]; simpl; [constructor|].
  destruct e as [s|]; [|exact IH].
  destruct (s =? ""); [exact IH|]. simpl. constructor; [|exact IH].
  intros Hin. apply in_flat_map in Hin. destruct Hin as (e' & He' & Hs).
  destruct e' as [s'|]; [|contradiction].
  destruct (s' =? ""); [contradiction|].
  destruct Hs as [->|[]]. contradiction.
Qed.

(** C4, as the handler has it. [ecosystems_handler] asks the store once
    and returns, in ascending order and without repetition, the
    non-empty ecosystems of all stored records, whatever their status
    and visibility. *)
Theorem ecosystems_handler_all_records (ds : Ndb.Datastore) :
  exists names,
    ecosystems_handler ds = ([QueryEcosystems], Ok (JsonEcosystems names)) /\
    StronglySorted string_le names /\
    NoDup names /\
    forall s, In s names <->
              s <> "" /\ exists b, In b (Ndb.all_bugs ds) /\ ecosystem b = Some s.
Proof.
  eexists. split; [reflexivity|]. split; [apply sorted_strings|]. split.
  - eapply Permutation_NoDup; [symmetry; apply sorted_Permutation|].
    apply NoDup_named, NoDup_nodup.
  - intros s. rewrite sorted_In, in_flat_map. split.
    + intros (e & He & Hs). unfold Ndb.distinct_ecosystems in He.
      apply nodup_In, in_map_iff in He. destruct He as (b & Hb & Hin).
      destruct e as [s'|]; [|contradiction].
      destruct (String.eqb_spec s' ""); [contradiction|].
      destruct Hs as [->|[]]. split; [assumption|]. now exists b.
    + intros (Hne & b & Hin & Hb). exists (Some s). split.
      * unfold Ndb.distinct_ecosystems. apply nodup_In, in_map_iff. now exists b.
      * destruct (String.eqb_spec s ""); [contradiction | now left].
Qed.

(** C4, as stated, fails on a store whose only record is UNPROCESSED:
    the handler lists its ecosystem, the contract lists none. *)
Lemma ecosystems_handler_lists_unprocessed :
  snd (ecosystems_handler Sample.ds_unprocessed) = Ok (JsonEcosystems ["crates.io"]) /\
  listEcosystems_contract Sample.ds_unprocessed = [] /\
  snd (ecosystems_handler Sample.ds_unprocessed) <>
  Ok (JsonEcosystems (listEcosystems_contract Sample.ds_unprocessed)).
Proof.
  split; [reflexivity|]. split; [reflexivity|]. discriminate.
Qed.

(** ** Concurrent admission *)

















(** Every system can run to completion: some interleaving decides all
    requests. *)
Lemma work_left_set_nth (i : nat) (x old : Worker) (ws : list Worker) :
  nth_error ws i = Some old ->
  (work_left (set_nth i x ws) + steps_left old = work_left ws + steps_left x)%nat.
Proof.
  unfold work_left. revert i.
  induction ws as [|y ws IH]; intros [|i]; simpl; try discriminate.
  - intros [= ->]. lia.
  - intros H. specialize (IH i H). lia.
Qed.

Lemma undecided_index (ws : list Worker) :
  forallb is_decided ws = false ->
  exists i w, nth_error ws i = Some w /\ is_decided w = false.
Proof.
  induction ws as [|y ws IH]; simpl; [discriminate|].
  destruct (is_decided y) eqn:Hy; simpl.
  - intros H. destruct (IH H) as (i & w & Hi & Hw). now exists (S i), w.
  - intros _. now exists 0%nat, y.
Qed.

Lemma advance_work_left (budget i : nat) (b : Backend) (ws : list Worker)
  (w : Worker) :
  nth_error ws i = Some w -> is_decided w = false ->
  S (work_left (snd (advance budget i (b, ws)))) = work_left ws.
Proof.
  intros Hi Hw. unfold advance, increment_and_get. rewrite Hi.
  pose proof (fun x => work_left_set_nth i x w ws Hi) as C.
  unfold is_decided in Hw. unfold steps_left at 1 in C.
  destruct (phase w) as [|c|a]; [| |discriminate]; cbn [fst snd].
  - specialize (C {| target := target w; phase := Counted (S (b (target w))) |}).
    unfold steps_left in C. simpl in C. lia.
  - specialize (C {| target := target w; phase := Decided (c <=? budget)%nat |}).
    unfold steps_left in C. simpl in C. lia.
Qed.

Lemma some_interleaving_completes (budget : nat) (s : System) :
  exists schedule, forallb is_decided (snd (run budget schedule s)) = true.
Proof.
  remember (work_left (snd s)) as n eqn:Hn. revert s Hn.
  induction n as [|n IH]; intros [b ws] Hn; simpl in Hn.
  - exists []. simpl. destruct (forallb is_decided ws) eqn:Hd; [reflexivity|].
    destruct (undecided_index ws Hd) as (i & w & Hi & Hw).
    pose proof (advance_work_left budget i b ws w Hi Hw). lia.
  - destruct (forallb is_decided ws) eqn:Hd; [now exists []|].
    destruct (undecided_index ws Hd) as (i & w & Hi & Hw).
    pose proof (advance_work_left budget i b ws w Hi Hw) as Hs.
    destruct (IH (advance budget i (b, ws))) as (schedule & Hdone); [lia|].
    now exists (i :: schedule).
Qed.

(** A request served alone takes its two steps back to back: that is
    [check_request]. *)
Lemma check_request_two_steps (budget : nat) (b : Backend) (clientId : string)
  (now : Z) :
  run budget [0; 0]%nat
      (b, [{| target := (clientId, window_of now); phase := Pending |}]) =
  (snd (check_request budget b clientId now),
   [{| target := (clientId, window_of now);
       phase := Decided (fst (check_request budget b clientId now)) |}]).
Proof. reflexivity. Qed.

(** ** The built-ins on sample texts *)

Example py_int_samples :
  Py.int_ascii " +1_6 " = Some 16%Z /\ Py.int_ascii "abc" = None /\
  Py.int_ascii "" = None /\ Py.int_ascii "-3" = Some (-3)%Z /\
  Py.int_ascii "1__0" = None /\ Py.int_ascii "1_" = None /\
  Py.int_ascii (String "031" "2") = None /\
  Py.int_ascii (String "011" "2") = Some 2%Z.
Proof. repeat split; reflexivity. Qed.

(** On plain text [int] and [str_lower] do not depend on the
    interpreter; on other text they are the interpreter's. *)
Lemma int_plain (I : Py.Interpreter) (s : string) :
  Py.plain s = true -> Py.int I s = Py.int_ascii s.
Proof. unfold Py.int. now intros ->. Qed.

Lemma str_lower_ascii (I : Py.Interpreter) (s : string) :
  Py.isascii s = true -> Py.str_lower I s = Py.lower s.
Proof. unfold Py.str_lower. now intros ->. Qed.

(** A page in Arabic-Indic digits is served; a page with a control
    character before the digit is not a number. *)
Example query_handler_page_texts :
  (exists q,
      fst (query_handler Sample.dev Sample.ds
             (Sample.request RouteQuery [("page", Sample.three)] []))
      = [QueryCount q; QueryFetchPage q 16 32]) /\
  query_handler Sample.dev Sample.ds
    (Sample.request RouteQuery [("page", String "031" "2")] [])
  = ([], Raise ValueError) /\
  query_handler Sample.dev Sample.ds
    (Sample.request RouteQuery [("page", " 2 ")] [])
  = query_handler Sample.dev Sample.ds
      (Sample.request RouteQuery [("page", "2")] []).
Proof.
  split; [eexists; reflexivity|]. split; reflexivity.
Qed.

Example interpreter_samples :
  Py.int Sample.interpreter Sample.three = Some 3%Z /\
  Py.int Sample.interpreter "16" = Some 16%Z /\
  Py.str_lower Sample.interpreter Sample.ECLAIR = Sample.eclair /\
  Py.str_lower Sample.interpreter "OSV-2020-1" = "osv-2020-1".
Proof. repeat split; reflexivity. Qed.

Example py_split_samples :
  Py.split ":" "a:b:c" = ["a"; "b"; "c"] /\ Py.split ":" ":" = [""; ""] /\
  Py.split1 "/" "npm/a/b" = ["npm"; "a/b"] /\
  Py.lower "CVE-2021-X" = "cve-2021-x".
Proof. repeat split; reflexivity. Qed.

(* ================================================================= *)
(** * Further properties of the handlers *)

(** ** Package lookup *)

Lemma split1_no_sep (c : ascii) (s : string) :
  Py.count c s = 0%nat -> Py.split1 c s = [s].
Proof.
  induction s as [|d s IH]; simpl; [reflexivity|].
  destruct (d =? c)%char; [discriminate|].
  intros H. now rewrite (IH H).
Qed.

Lemma split1_at_first (c : ascii) (a b : string) :
  Py.count c a = 0%nat -> Py.split1 c (a ++ String c b) = [a; b].
Proof.
  induction a as [|d a IH]; simpl.
  - intros _. now rewrite Ascii.eqb_refl.
  - destruct (d =? c)%char; [discriminate|].
    intros H. now rewrite (IH H).
Qed.

(** A package request without a [package] parameter, with an empty one,
    or with one that has no ['/'] ends with 400 and never reaches the
    store. *)
Theorem package_handler_rejects (ds : Ndb.Datastore) (req : Request) :
  (Py.truthy (Py.get "package" (args req)) = false \/
   exists p, Py.get "package" (args req) = Some p /\ Py.count "/" p = 0%nat) ->
  package_handler ds req = ([], Abort 400).
Proof.
  unfold package_handler, Py.truthy.
  intros [H | (p & Hp & Hc)].
  - destruct (Py.get "package" (args req)) as [p|]; [|reflexivity].
    destruct (p =? ""); [reflexivity | discriminate].
  - rewrite Hp. destruct (p =? ""); [reflexivity|].
    now rewrite (split1_no_sep "/" p Hc).
Qed.

Lemma package_handler_rejects_witness :
  package_handler Sample.ds (Sample.request RoutePackage [("package", "lodash")] [])
  = ([], Abort 400).
Proof.
  apply package_handler_rejects. right. exists "lodash". split; reflexivity.
Defined.

Lemma tag_order_total (a b : string * list string) :
  String.leb (fst b) (fst a) = true \/ String.leb (fst a) (fst b) = true.
Proof. apply String.leb_total. Qed.

Lemma append_nonempty (a b : string) : (a ++ String "/" b)%string <> "".
Proof. destruct a; discriminate. Qed.

(** A package path splits at its first ['/'] into ecosystem and package
    (the package may itself contain ['/']). The store is asked once, for
    that pair, and the answer lists, by descending tag, exactly the tags
    stored for the pair that have at least one non-empty bug id, each
    with its bugs. *)
Theorem package_handler_lookup (ds : Ndb.Datastore) (req : Request)
  (ecosystem package : string) :
  Py.get "package" (args req) = Some (ecosystem ++ "/" ++ package)%string ->
  Py.count "/" ecosystem = 0%nat ->
  exists entries,
    package_handler ds req =
      ([QueryPackageTags package ecosystem], Ok (JsonPackage entries)) /\
    StronglySorted tag_ge entries /\
    Permutation entries
      (map (fun t => (tag t, bugs t)) (Ndb.package_tags ds package ecosystem)) /\
    forall t bs,
      In (t, bs) entries <->
      exists info,
        In info (Ndb.all_package_tag_infos ds) /\
        pti_package info = package /\ pti_ecosystem info = ecosystem /\
        tag info = t /\ bugs info = bs /\
        exists b, In b bs /\ b <> "".
Proof.
  intros Hp Hc. eexists. split; [|split; [|split]].
  - unfold package_handler. rewrite Hp.
    change (ecosystem ++ "/" ++ package)%string
      with (ecosystem ++ String "/" package)%string.
    destruct (String.eqb_spec (ecosystem ++ String "/" package) "") as [He|_];
      [now apply append_nonempty in He|].
    rewrite (split1_at_first "/" ecosystem package Hc). reflexivity.
  - apply Sorted_StronglySorted.
    + intros a b c Hab Hbc. unfold tag_ge in *.
      exact (string_leb_trans _ _ _ Hbc Hab).
    + apply (sorted_Sorted (fun a b : string * list string =>
                              String.leb (fst b) (fst a))).
      intros a b. apply String.leb_total.
  - apply sorted_Permutation.
  - intros t bs. rewrite sorted_In, in_map_iff. unfold Ndb.package_tags. split.
    + intros (info & Heq & Hin). injection Heq as <- <-.
      apply filter_In in Hin. destruct Hin as (Hin & Hm).
      rewrite !andb_true_iff, !String.eqb_eq, existsb_exists in Hm.
      destruct Hm as ((Hpk & Hec) & b & Hb & Hne).
      exists info. repeat split; try assumption.
      exists b. split; [assumption|].
      intros ->. discriminate Hne.
    + intros (info & Hin & Hpk & Hec & <- & <- & b & Hb & Hne).
      exists info. split; [reflexivity|]. apply filter_In. split; [assumption|].
      rewrite !andb_true_iff, !String.eqb_eq, existsb_exists.
      repeat split; try assumption.
      exists b. split; [assumption|].
      now destruct (String.eqb_spec b "").
Qed.

Lemma package_handler_lookup_witness :
  package_handler Sample.ds_tags
    (Sample.request RoutePackage [("package", "npm/@babel/core")] []) =
  ([QueryPackageTags "@babel/core" "npm"],
   Ok (JsonPackage [("7.2.0", ["OSV-2020-2"; "OSV-2020-4"]);
                    ("7.0.0", ["OSV-2020-2"])])).
Proof.
  destruct (package_handler_lookup Sample.ds_tags
              (Sample.request RoutePackage [("package", "npm/@babel/core")] [])
              "npm" "@babel/core" eq_refl eq_refl) as (entries & Hrun & _).
  rewrite Hrun. vm_compute in Hrun. injection Hrun as <-. reflexivity.
Defined.

(** ** Links of the affected ranges *)

Lemma enumerate_length {A} (i : nat) (l : list A) :
  List.length (enumerate i l) = List.length l.
Proof. revert i. induction l as [|x l IH]; intros i; simpl; [|rewrite IH]; reflexivity. Qed.

Lemma enumerate_nth {A B} (f : nat -> A -> B) (i n : nat) (l : list A) :
  nth_error (map (fun ia => f (fst ia) (snd ia)) (enumerate i l)) n =
  option_map (f (i + n)%nat) (nth_error l n).
Proof.
  revert i n. induction l as [|x l IH]; intros i [|n]; simpl; try reflexivity.
  - now rewrite Nat.add_0_r.
  - rewrite IH. now rewrite Nat.add_succ_r.
Qed.

Lemma add_links_ranges (E : Env) (r : Response) (a : Affects)
  (rs : list AffectedRange) :
  affects r = Some a -> ranges a = Some rs ->
  add_links E r =
  {| fields := fields r;
     affects :=
       Some {| ranges :=
                 Some (map (fun ia => add_links_range E (fst ia) (snd ia))
                           (enumerate 0 rs)) |};
     isFixed := isFixed r; invalid := invalid r;
     source_label := source_label r; source_link := source_link r |}.
Proof. intros Ha Hr. unfold add_links. now rewrite Ha, Hr. Qed.

(** Case analysis along the branches of [add_links_range]. *)
Ltac range_cases :=
  repeat (cbn;
          match goal with
          | |- context [match ?o with Some _ => _ | None => _ end] =>
              is_var o; destruct o
          | |- context [if ?b then _ else _] => destruct b eqn:?
          | |- context [match ?o with Some _ => _ | None => _ end] =>
              destruct o eqn:?
          end);
  cbn in *;
  repeat match goal with
         | H : (_ =? _) = true |- _ => apply String.eqb_eq in H
         end;
  subst.

Lemma add_links_range_keys (E : Env) (i : nat) (x : AffectedRange) :
  id (add_links_range E i x) = Some i /\
  range_type (add_links_range E i x) = range_type x /\
  repo (add_links_range E i x) = repo x /\
  introduced (add_links_range E i x) = introduced x /\
  fixed (add_links_range E i x) = fixed x.
Proof.
  destruct x as [ty rp intro fx i0 il fl]. unfold add_links_range.
  range_cases; cbn in *; repeat split; congruence.
Qed.

(** [add_links] keeps the ranges in number and order, numbers each with
    its zero-based position, leaves the type, repository and commit
    references of every range as they were, and touches nothing else in
    the response. *)
Theorem add_links_numbers_ranges (E : Env) (r : Response) (a : Affects)
  (rs : list AffectedRange) :
  affects r = Some a -> ranges a = Some rs ->
  exists rs',
    affects (add_links E r) = Some {| ranges := Some rs' |} /\
    List.length rs' = List.length rs /\
    (forall i x, nth_error rs i = Some x ->
       exists x', nth_error rs' i = Some x' /\
                  id x' = Some i /\ range_type x' = range_type x /\
                  repo x' = repo x /\ introduced x' = introduced x /\
                  fixed x' = fixed x) /\
    fields (add_links E r) = fields r /\
    isFixed (add_links E r) = isFixed r /\
    invalid (add_links E r) = invalid r /\
    source_label (add_links E r) = source_label r /\
    source_link (add_links E r) = source_link r.
Proof.
  intros Ha Hr. rewrite (add_links_ranges E r a rs Ha Hr). cbn.
  eexists. split; [reflexivity|]. split; [|split; [|now repeat split]].
  - now rewrite length_map, enumerate_length.
  - intros i x Hx. rewrite enumerate_nth, Hx. simpl.
    eexists. split; [reflexivity|]. apply add_links_range_keys.
Qed.

Lemma add_links_numbers_ranges_witness :
  exists rs',
    affects (add_links Sample.dev Sample.response) = Some {| ranges := Some rs' |} /\
    List.length rs' = 3%nat.
Proof.
  destruct (add_links_numbers_ranges Sample.dev Sample.response _ _
              eq_refl eq_refl) as (rs' & H1 & H2 & _).
  exists rs'. split; [exact H1 | exact H2].
Defined.

(** A response without ['affects'] or without ['ranges'] passes through
    [add_links] unchanged. *)
Lemma add_links_no_ranges (E : Env) (r : Response) :
  (affects r = None \/ exists a, affects r = Some a /\ ranges a = None) ->
  add_links E r = r.
Proof.
  unfold add_links. intros [H | (a & Ha & Hr)].
  - now rewrite H.
  - now rewrite Ha, Hr.
Qed.

Lemma add_links_range_links (E : Env) (i : nat) (x : AffectedRange) :
  ((range_type x <> "GIT" \/ Py.truthy (repo x) = false) ->
   introduced_link (add_links_range E i x) = introduced_link x /\
   fixed_link (add_links_range E i x) = fixed_link x) /\
  (forall url,
      range_type x = "GIT" -> repo x = Some url -> url <> "" ->
      (forall c, introduced x = Some c -> c <> "" ->
                 introduced_link (add_links_range E i x)
                 = Some (_commit_to_link E url c)) /\
      (Py.truthy (introduced x) = false ->
       introduced_link (add_links_range E i x) = introduced_link x) /\
      (forall c, fixed x = Some c -> c <> "" ->
                 fixed_link (add_links_range E i x)
                 = Some (_commit_to_link E url c)) /\
      (Py.truthy (fixed x) = false ->
       fixed_link (add_links_range E i x) = fixed_link x)).
Proof.
  destruct x as [ty rp intro fx i0 il fl]. unfold add_links_range, Py.truthy.
  cbn [range_type repo introduced fixed introduced_link fixed_link].
  split.
  - intros [Hty | Hrp].
    + destruct (String.eqb_spec ty "GIT"); [contradiction|]. now split.
    + destruct (negb (ty =? "GIT")); [now split|].
      destruct rp as [url|]; [|now split].
      destruct (url =? ""); [now split | discriminate].
  - intros url -> -> Hurl. cbn.
    destruct (String.eqb_spec url ""); [contradiction|].
    repeat split.
    + intros c -> Hc. range_cases; congruence.
    + destruct intro as [c|]; [destruct (String.eqb_spec c ""); [subst c|discriminate]|];
        intros _; range_cases; congruence.
    + intros c -> Hc. range_cases; congruence.
    + destruct fx as [c|]; [destruct (String.eqb_spec c ""); [subst c|discriminate]|];
        intros _; range_cases; congruence.
Qed.

(** [add_links] adds links to commit ranges only. A range that is not
    of type GIT, or has no repository URL, keeps its link keys as they
    were. For a GIT range with a repository, each of [introduced] and
    [fixed] that is present and non-empty gets its link key set to what
    [_commit_to_link] returns for it (possibly no link); a reference
    that is missing or empty leaves its link key alone. *)
Theorem add_links_only_commit_ranges (E : Env) (r : Response) (a : Affects)
  (rs : list AffectedRange) (i : nat) (x : AffectedRange) :
  affects r = Some a -> ranges a = Some rs -> nth_error rs i = Some x ->
  exists rs' x',
    affects (add_links E r) = Some {| ranges := Some rs' |} /\
    nth_error rs' i = Some x' /\
    ((range_type x <> "GIT" \/ Py.truthy (repo x) = false) ->
     introduced_link x' = introduced_link x /\ fixed_link x' = fixed_link x) /\
    (forall url,
        range_type x = "GIT" -> repo x = Some url -> url <> "" ->
        (forall c, introduced x = Some c -> c <> "" ->
                   introduced_link x' = Some (_commit_to_link E url c)) /\
        (Py.truthy (introduced x) = false ->
         introduced_link x' = introduced_link x) /\
        (forall c, fixed x = Some c -> c <> "" ->
                   fixed_link x' = Some (_commit_to_link E url c)) /\
        (Py.truthy (fixed x) = false -> fixed_link x' = fixed_link x)).
Proof.
  intros Ha Hr Hx. rewrite (add_links_ranges E r a rs Ha Hr). cbn [affects].
  eexists _, (add_links_range E i x). split; [reflexivity|]. split.
  - now rewrite enumerate_nth, Hx.
  - apply add_links_range_links.
Qed.

Lemma add_links_only_commit_ranges_witness :
  exists rs' x',
    affects (add_links Sample.dev Sample.response) = Some {| ranges := Some rs' |} /\
    nth_error rs' 0 = Some x' /\
    introduced_link x' = Some (Some "https://github.com/x/y/commit/abc123") /\
    fixed_link x' = None.
Proof.
  destruct (add_links_only_commit_ranges Sample.dev Sample.response _ _ 0%nat _
              eq_refl eq_refl eq_refl) as (rs' & x' & H1 & H2 & _ & H3).
  exists rs', x'. split; [exact H1|]. split; [exact H2|].
  destruct (H3 "https://github.com/x/y" eq_refl eq_refl) as (Hi & _ & _ & Hf).
  - discriminate.
  - split.
    + rewrite (Hi "abc123" eq_refl); [reflexivity | discriminate].
    + exact (Hf eq_refl).
Defined.

Lemma add_links_range_idempotent (E : Env) (i : nat) (x : AffectedRange) :
  add_links_range E i (add_links_range E i x) = add_links_range E i x.
Proof.
  destruct x as [ty rp intro fx i0 il fl]. unfold add_links_range.
  range_cases; cbn in *; congruence.
Qed.

Lemma map_enumerate_idempotent {A} (f : nat -> A -> A) (i : nat) (l : list A) :
  (forall j x, f j (f j x) = f j x) ->
  map (fun ia => f (fst ia) (snd ia))
      (enumerate i (map (fun ia => f (fst ia) (snd ia)) (enumerate i l)))
  = map (fun ia => f (fst ia) (snd ia)) (enumerate i l).
Proof.
  intros Hf. revert i. induction l as [|x l IH]; intros i; simpl; [reflexivity|].
  now rewrite Hf, IH.
Qed.

(** Adding links twice is the same as adding them once. *)
Theorem add_links_idempotent (E : Env) (r : Response) :
  add_links E (add_links E r) = add_links E r.
Proof.
  destruct (affects r) as [a|] eqn:Ha.
  - destruct (ranges a) as [rs|] eqn:Hr.
    + rewrite (add_links_ranges E r a rs Ha Hr).
      unfold add_links at 1. cbn [affects ranges fields isFixed invalid
                                   source_label source_link].
      rewrite map_enumerate_idempotent; [reflexivity|].
      apply add_links_range_idempotent.
    + rewrite (add_links_no_ranges E r); [|right; now exists a].
      apply add_links_no_ranges. right. now exists a.
  - rewrite (add_links_no_ranges E r); [|now left].
    apply add_links_no_ranges. now left.
Qed.

(** ** Responses *)

Lemma add_links_flags (E : Env) (r : Response) :
  isFixed (add_links E r) = isFixed r /\
  source_label (add_links E r) = source_label r /\
  source_link (add_links E r) = source_link r.
Proof.
  unfold add_links. destruct (affects r) as [a|]; [|now repeat split].
  destruct (ranges a); now repeat split.
Qed.

Lemma add_source_info_isFixed (E : Env) (bug : Bug) (r : Response) :
  isFixed (add_source_info E bug r) = isFixed r.
Proof.
  unfold add_source_info. destruct (source_of_truth bug); [reflexivity|].
  destruct (get_source_repository E (source bug)) as [sr|]; [|reflexivity].
  destruct (negb (Py.truthy (link sr))); reflexivity.
Qed.

(** Whatever [osv.vulnerability_to_dict] put under ['isFixed'] and
    ['invalid'], a response carries the entity's [is_fixed] flag and
    whether its status is INVALID, in the detailed form and in the list
    form alike. *)
Theorem bug_to_response_flags (E : Env) (bug : Bug) (detailed : bool) :
  isFixed (bug_to_response E bug detailed) = Some (is_fixed bug) /\
  (invalid (bug_to_response E bug detailed) = Some true <-> status bug = INVALID) /\
  (invalid (bug_to_response E bug detailed) = Some false <-> status bug <> INVALID).
Proof.
  split; [|split].
  - unfold bug_to_response. destruct detailed; [|reflexivity].
    rewrite add_source_info_isFixed.
    now rewrite (proj1 (add_links_flags E _)).
  - rewrite bug_to_response_invalid. destruct (status bug); simpl;
      split; congruence.
  - rewrite bug_to_response_invalid. destruct (status bug); simpl;
      split; congruence.
Qed.

(** The source attribution of a detailed response: an INTERNAL record
    is labelled ["INTERNAL"] and gets no link; any other record whose
    source repository is known and has a link gets that link followed
    by the record's path, as label and as link; when the repository is
    unknown or has no link, label and link stay as the dictionary had
    them. *)
Theorem bug_to_response_source (E : Env) (bug : Bug) :
  let d := vulnerability_to_dict E bug in
  let r := bug_to_response E bug true in
  (source_of_truth bug = INTERNAL ->
   source_label r = Some "INTERNAL" /\ source_link r = source_link d) /\
  (source_of_truth bug <> INTERNAL ->
   forall sr l,
     get_source_repository E (source bug) = Some sr ->
     link sr = Some l -> l <> "" ->
     source_label r = Some (l ++ source_path E sr bug)%string /\
     source_link r = Some (l ++ source_path E sr bug)%string) /\
  (source_of_truth bug <> INTERNAL ->
   (get_source_repository E (source bug) = None \/
    exists sr, get_source_repository E (source bug) = Some sr /\
               Py.truthy (link sr) = false) ->
   source_label r = source_label d /\ source_link r = source_link d).
Proof.
  cbv zeta. unfold bug_to_response.
  set (r0 := {| fields := _; affects := _; isFixed := _; invalid := _;
                source_label := _; source_link := _ |}).
  destruct (add_links_flags E r0) as (_ & Hl & Hk).
  change (source_label r0) with (source_label (vulnerability_to_dict E bug)) in Hl.
  change (source_link r0) with (source_link (vulnerability_to_dict E bug)) in Hk.
  unfold add_source_info.
  split; [|split].
  - intros ->. cbn. now split.
  - intros Hs sr l Hsr Hlink Hne.
    destruct (source_of_truth bug); [contradiction|].
    rewrite Hsr. unfold Py.truthy. rewrite Hlink.
    destruct (String.eqb_spec l ""); [contradiction|]. cbn. now split.
  - intros Hs Hrepo.
    destruct (source_of_truth bug); [contradiction|].
    destruct Hrepo as [Hn | (sr & Hsr & Hlink)].
    + rewrite Hn. now split.
    + rewrite Hsr, Hlink. cbn. now split.
Qed.

Lemma bug_to_response_source_witness :
  source_label (bug_to_response Sample.dev
                  (Sample.bug "OSV-2020-4" INVALID true (Some "npm") 20) true)
  = Some "INTERNAL".
Proof.
  exact (proj1 (proj1 (bug_to_response_source Sample.dev
                         (Sample.bug "OSV-2020-4" INVALID true (Some "npm") 20))
                      eq_refl)).
Defined.

(** ** The detailed response *)

Lemma add_links_range_linked (E : Env) (i : nat) (x : AffectedRange) :
  range_linked E i x (add_links_range E i x).
Proof.
  destruct x as [ty rp intro fx i0 il fl].
  unfold range_linked, add_links_range, expected_link.
  repeat (cbn;
          match goal with
          | |- context [(?a =? ?b)%string] => destruct (a =? b)%string eqn:?
          | |- context [match ?o with Some _ => _ | None => _ end] =>
              is_var o; destruct o
          end);
    cbn; repeat split; reflexivity.
Qed.

Lemma add_links_ranges_linked (E : Env) (d r : Response) :
  affects r = affects d -> ranges_linked E d (add_links E r).
Proof.
  intros Ha. unfold ranges_linked.
  destruct (affects d) as [a|] eqn:Hd.
  - destruct (ranges a) as [rs|] eqn:Hr.
    + rewrite (add_links_ranges E r a rs Ha Hr). cbn [affects].
      eexists. split; [reflexivity|]. split.
      * now rewrite length_map, enumerate_length.
      * intros i x Hx. rewrite enumerate_nth, Hx. cbn.
        eexists. split; [reflexivity|]. apply add_links_range_linked.
    + rewrite (add_links_no_ranges E r); [now rewrite Ha|].
      right. now exists a.
  - rewrite (add_links_no_ranges E r); [exact Ha | now left].
Qed.

Lemma ranges_linked_affects (E : Env) (d r r' : Response) :
  affects r = affects r' -> ranges_linked E d r -> ranges_linked E d r'.
Proof. unfold ranges_linked. now intros ->. Qed.

Lemma add_source_info_attributed (E : Env) (bug : Bug) (r : Response) :
  source_attributed E bug r (add_source_info E bug r) /\
  fields (add_source_info E bug r) = fields r /\
  affects (add_source_info E bug r) = affects r.
Proof.
  unfold source_attributed, add_source_info.
  destruct (source_of_truth bug); [now repeat split|].
  destruct (get_source_repository E (source bug)) as [sr|]; [|now repeat split].
  unfold Py.truthy. destruct (link sr) as [l|]; [|now repeat split].
  destruct (l =? ""); now repeat split.
Qed.

Lemma bug_to_response_detailed (E : Env) (bug : Bug) :
  detailed_response E bug (bug_to_response E bug true).
Proof.
  unfold detailed_response. cbv zeta.
  pose proof (bug_to_response_invalid E bug true) as Hinv.
  unfold bug_to_response in *.
  set (r0 := {| fields := _; affects := _; isFixed := _; invalid := _;
                source_label := _; source_link := _ |}) in *.
  destruct (add_source_info_attributed E bug (add_links E r0)) as (Hs & Hf & Ha).
  destruct (add_links_flags E r0) as (Hfix & Hl & Hk).
  split; [|split; [|split; [|split; [|split]]]].
  - rewrite Hf. unfold add_links. destruct (affects r0) as [a|]; [|reflexivity].
    destruct (ranges a); reflexivity.
  - now rewrite add_source_info_isFixed, Hfix.
  - intros Hst. rewrite Hinv, Hst. reflexivity.
  - intros Hst. rewrite Hinv. destruct (status bug); try reflexivity.
    now contradiction Hst.
  - apply (ranges_linked_affects E _ (add_links E r0)); [now symmetry|].
    now apply add_links_ranges_linked.
  - unfold source_attributed in *. rewrite Hl, Hk in Hs. exact Hs.
Qed.

(** C9. A record that exists, is public and has status INVALID is
    served: the fetch returns its detailed response (the fields of its
    dictionary, the entity's flags, every range numbered and with its
    commit links resolved, the source attribution), and the [invalid]
    field of that response is true. *)
Theorem vulnerability_handler_invalid_served (E : Env) (ds : Ndb.Datastore)
  (req : Request) (vuln_id : string) (bug : Bug) :
  Py.get "id" (args req) = Some vuln_id -> vuln_id <> "" ->
  Ndb.get_by_id ds vuln_id = Some bug ->
  public bug = true -> status bug = INVALID ->
  exists r,
    vulnerability_handler E ds req =
      ([GetById vuln_id], Ok (JsonVulnerability r)) /\
    r = bug_to_response E bug true /\
    invalid r = Some true /\
    detailed_response E bug r.
Proof.
  intros Hid Hne Hget Hpub Hst.
  exists (bug_to_response E bug true).
  rewrite (vulnerability_handler_found E ds req vuln_id Hid Hne), Hget, Hst, Hpub.
  split; [reflexivity|]. split; [reflexivity|]. split.
  - now rewrite bug_to_response_invalid, Hst.
  - apply bug_to_response_detailed.
Qed.

Lemma vulnerability_handler_invalid_served_witness :
  exists r rs x,
    vulnerability_handler Sample.dev Sample.ds
      (Sample.request RouteVulnerability [("id", "OSV-2020-4")] []) =
      ([GetById "OSV-2020-4"], Ok (JsonVulnerability r)) /\
    invalid r = Some true /\
    fields r = [("id", "OSV-2020-4")] /\
    source_label r = Some "INTERNAL" /\
    affects r = Some {| ranges := Some rs |} /\
    nth_error rs 0 = Some x /\
    id x = Some 0%nat /\
    introduced_link x = Some None /\
    fixed_link x = Some (Some "https://github.com/x/y/compare/abc123..def456").
Proof.
  destruct (vulnerability_handler_invalid_served Sample.dev Sample.ds
              (Sample.request RouteVulnerability [("id", "OSV-2020-4")] [])
              "OSV-2020-4"
              (Sample.bug "OSV-2020-4" INVALID true (Some "npm") 20)
              eq_refl)
    as (r & Hrun & _ & Hinv & Hf & _ & _ & _ & Hranges & Hsrc);
    [discriminate | reflexivity | reflexivity | reflexivity |].
  cbn in Hranges. destruct Hranges as (rs & Ha & _ & Hnth).
  destruct (Hnth 0%nat _ eq_refl) as (x & Hx & Hid & _ & _ & _ & _ & Hil & Hfl).
  exists r, rs, x. repeat split; try assumption. exact (proj1 Hsrc).
Defined.

Lemma same_python_query (E1 E2 : Env) (req : Request) :
  python E1 = python E2 ->
  built_query E1 req = built_query E2 req /\
  (forall page, page_param E1 req page -> page_param E2 req page).
Proof.
  intros Hpy. unfold built_query, page_param. rewrite Hpy. now split.
Qed.

(** A search never resolves commit links or source repositories: two
    deployments on the same interpreter that build the same
    dictionaries answer a query request alike, whatever their VCS
    viewers, source repositories and limiter. *)
Theorem query_handler_no_enrichment (E1 E2 : Env) (ds : Ndb.Datastore)
  (req : Request) :
  python E1 = python E2 ->
  (forall bug, vulnerability_to_dict E1 bug = vulnerability_to_dict E2 bug) ->
  query_handler E1 ds req = query_handler E2 ds req.
Proof.
  intros Hpy Hd.
  assert (Hr : forall bug, bug_to_response E1 bug false = bug_to_response E2 bug false).
  { intros bug. unfold bug_to_response. now rewrite Hd. }
  destruct (same_python_query E1 E2 req Hpy) as (Hq & Hpage).
  destruct (Py.get "page" (args req)) as [s|] eqn:Hs.
  - destruct (Py.int (python E1) s) as [n|] eqn:Hn.
    + assert (Hp : page_param E1 req n) by (right; now exists s).
      rewrite (query_handler_page E1 ds req n Hp).
      rewrite (query_handler_page E2 ds req n (Hpage n Hp)), Hq.
      destruct (Ndb.fetch_page ds _ _ _); [|reflexivity].
      do 3 f_equal. apply map_ext. exact Hr.
    + rewrite (query_handler_bad_page E1 ds req s Hs Hn).
      rewrite Hpy in Hn.
      now rewrite (query_handler_bad_page E2 ds req s Hs Hn).
  - assert (Hp : page_param E1 req 1) by now left.
    rewrite (query_handler_page E1 ds req 1 Hp).
    rewrite (query_handler_page E2 ds req 1 (Hpage 1%Z Hp)), Hq.
    destruct (Ndb.fetch_page ds _ _ _); [|reflexivity].
    do 3 f_equal. apply map_ext. exact Hr.
Qed.

Lemma query_handler_no_enrichment_witness :
  query_handler Sample.dev Sample.ds (Sample.request RouteQuery [] []) =
  query_handler
    {| vulnerability_to_dict := vulnerability_to_dict Sample.dev;
       get_source_repository := fun _ => Some {| link := Some "https://src/" |};
       source_path := fun _ bug => key bug;
       get_vcs_viewer_for_url := fun _ => None;
       limiter_check_request := fun _ _ => false;
       render_template := fun name => name;
       GAE_ENV := Some "standard";
       python := python Sample.dev |}
    Sample.ds (Sample.request RouteQuery [] []).
Proof.
  apply query_handler_no_enrichment; [reflexivity|]. intros bug. reflexivity.
Defined.

(** ** Outcomes of a request *)

(** What [query_handler] can do, by the page parameter alone. *)
Lemma query_handler_cases (E : Env) (ds : Ndb.Datastore) (req : Request) :
  (exists s, Py.get "page" (args req) = Some s /\ Py.int (python E) s = None /\
             query_handler E ds req = ([], Raise ValueError)) \/
  (exists page q, page_param E req page /\
     fst (query_handler E ds req) =
       [QueryCount q; QueryFetchPage q _PAGE_SIZE ((page - 1) * _PAGE_SIZE)] /\
     ((exists total items,
          snd (query_handler E ds req) = Ok (JsonQuery total items)) \/
      snd (query_handler E ds req) = Raise BadArgumentError)).
Proof.
  destruct (Py.get "page" (args req)) as [s|] eqn:Hs.
  - destruct (Py.int (python E) s) as [n|] eqn:Hn.
    + right. exists n, (built_query E req).
      assert (Hp : page_param E req n) by (right; now exists s).
      split; [exact Hp|]. rewrite (query_handler_page E ds req n Hp).
      split; [reflexivity|]. cbn [snd].
      destruct (Ndb.fetch_page ds _ _ _); [left; eauto | now right].
    + left. exists s. repeat split; try assumption.
      now apply (query_handler_bad_page E ds req s).
  - right. exists 1%Z, (built_query E req).
    assert (Hp : page_param E req 1) by now left.
    split; [exact Hp|]. rewrite (query_handler_page E ds req 1 Hp).
    split; [reflexivity|]. cbn [snd].
    destruct (Ndb.fetch_page ds _ _ _); [left; eauto | now right].
Qed.

(** [query_handler] never ends with [abort]: no request to it is
    answered with a 4xx status. It ends with an uncaught [ValueError]
    exactly when a [page] parameter is present and is not an integer
    literal, and then the store has not been asked. *)
Theorem query_handler_never_aborts (E : Env) (ds : Ndb.Datastore)
  (req : Request) :
  (forall code, snd (query_handler E ds req) <> Abort code) /\
  (snd (query_handler E ds req) = Raise ValueError <->
   exists s, Py.get "page" (args req) = Some s /\ Py.int (python E) s = None) /\
  (snd (query_handler E ds req) = Raise ValueError ->
   fst (query_handler E ds req) = []).
Proof.
  destruct (query_handler_cases E ds req)
    as [(s & Hs & Hn & Hq) | (page & q & Hp & Hlog & [(t & i & Hok) | Hbad])].
  - rewrite Hq. cbn. split; [discriminate|]. split; [|reflexivity].
    split; [intros _; now exists s | reflexivity].
  - rewrite Hok. split; [discriminate|]. split; [|discriminate].
    split; [discriminate|]. intros (s & Hs & Hn).
    destruct Hp as [[Hnone _] | (s' & Hs' & Hn')]; congruence.
  - rewrite Hbad. split; [discriminate|]. split; [|discriminate].
    split; [discriminate|]. intros (s & Hs & Hn).
    destruct Hp as [[Hnone _] | (s' & Hs' & Hn')]; congruence.
Qed.

(** A record is only ever served by the single-record fetch when it is
    stored under the requested id, is public and is not UNPROCESSED;
    the store is asked exactly once, for that id. *)
Theorem vulnerability_handler_served (E : Env) (ds : Ndb.Datastore)
  (req : Request) (log : list Call) (body : Body) :
  vulnerability_handler E ds req = (log, Ok body) ->
  exists vuln_id bug,
    Py.get "id" (args req) = Some vuln_id /\ vuln_id <> "" /\
    log = [GetById vuln_id] /\
    In bug (Ndb.all_bugs ds) /\ key bug = vuln_id /\
    public bug = true /\ status bug <> UNPROCESSED /\
    body = JsonVulnerability (bug_to_response E bug true).
Proof.
  intros H.
  destruct (Py.get "id" (args req)) as [vuln_id|] eqn:Hid;
    [|unfold vulnerability_handler in H; rewrite Hid in H; discriminate].
  destruct (String.eqb_spec vuln_id "") as [->|Hne];
    [unfold vulnerability_handler in H; rewrite Hid in H; discriminate|].
  rewrite (vulnerability_handler_found E ds req vuln_id Hid Hne) in H.
  destruct (Ndb.get_by_id ds vuln_id) as [bug|] eqn:Hget; [|discriminate].
  destruct (BugStatus_eqb (status bug) UNPROCESSED) eqn:Hst; [discriminate|].
  destruct (public bug) eqn:Hpub; [|discriminate].
  cbn in H. injection H as <- <-.
  unfold Ndb.get_by_id in Hget. apply find_some in Hget.
  destruct Hget as (Hin & Hk). apply String.eqb_eq in Hk.
  exists vuln_id, bug. repeat split; try assumption.
  intros Hs. rewrite Hs in Hst. discriminate.
Qed.

Lemma vulnerability_handler_served_witness :
  exists vuln_id bug,
    vuln_id = "OSV-2020-2" /\ key bug = vuln_id /\ public bug = true /\
    status bug <> UNPROCESSED.
Proof.
  destruct (vulnerability_handler_served Sample.dev Sample.ds
              (Sample.request RouteVulnerability [("id", "OSV-2020-2")] [])
              _ _ eq_refl)
    as (vuln_id & bug & Hid & _ & _ & _ & Hk & Hp & Hs & _).
  exists vuln_id, bug. repeat split; try assumption.
  now injection Hid as <-.
Defined.

Lemma view_never_asks_limiter (E : Env) (ds : Ndb.Datastore) (req : Request) :
  List.filter is_check_request (fst (view E ds req)) = [].
Proof.
  unfold view. destruct (route req).
  - reflexivity.
  - reflexivity.
  - destruct (query_handler_cases E ds req)
      as [(s & _ & _ & Hq) | (page & q & _ & Hlog & _)].
    + now rewrite Hq.
    + now rewrite Hlog.
  - unfold package_handler.
    destruct (Py.get "package" (args req)) as [p|]; [|reflexivity].
    destruct (p =? ""); [reflexivity|].
    destruct (Py.split1 "/" p) as [|a [|b [|c l]]]; reflexivity.
  - unfold vulnerability_handler.
    destruct (Py.get "id" (args req)) as [v|]; [|reflexivity].
    destruct (v =? ""); [reflexivity|]. cbn [bind call app].
    destruct (Ndb.get_by_id ds v) as [bug|]; [|reflexivity].
    destruct (BugStatus_eqb (status bug) UNPROCESSED); [reflexivity|].
    destruct (negb (public bug)); reflexivity.
Qed.

(** Every request asks the rate limiter exactly once in production and
    never outside production, whatever its route and however it ends. *)
Theorem limiter_asked_once (E : Env) (ds : Ndb.Datastore) (req : Request) :
  limiter_calls (handle_request E ds req) = if _is_prod E then 1%nat else 0%nat.
Proof.
  unfold limiter_calls. destruct (_is_prod E) eqn:Hprod.
  - rewrite (handle_request_prod E ds req Hprod). cbv zeta.
    destruct (limiter_check_request E _ _); cbn [fst List.filter is_check_request].
    + now rewrite view_never_asks_limiter.
    + reflexivity.
  - rewrite (handle_request_dev E ds req Hprod).
    now rewrite view_never_asks_limiter.
Qed.

Lemma prefix_append (p s : string) :
  String.prefix p s = true <-> exists rest, s = (p ++ rest)%string.
Proof.
  revert s. induction p as [|a p IH]; intros [|b s]; simpl.
  - split; [intros _; now exists EmptyString | reflexivity].
  - split; [intros _; now exists (String b s) | reflexivity].
  - split; [discriminate | intros (r & Hr); discriminate].
  - destruct (ascii_dec a b) as [->|Hab].
    + rewrite IH. split; intros (r & Hr); exists r; congruence.
    + split; [discriminate|]. intros (r & Hr). congruence.
Qed.

(** The deployment counts as production exactly when [GAE_ENV] is set
    and starts with ["standard"]; with the variable unset there is no
    rate limiting. *)
Theorem is_prod_iff (E : Env) :
  _is_prod E = true <->
  exists rest, GAE_ENV E = Some ("standard" ++ rest)%string.
Proof.
  unfold _is_prod, Py.startswith. rewrite prefix_append.
  destruct (GAE_ENV E) as [v|]; split.
  - intros (r & ->). now exists r.
  - intros (r & [= ->]). now exists r.
  - intros (r & Hr). discriminate.
  - intros (r & Hr). discriminate.
Qed.

Lemma view_aborts (E : Env) (ds : Ndb.Datastore) (req : Request) (code : Z) :
  snd (view E ds req) = Abort code ->
  (code = 400%Z /\ (route req = RoutePackage \/ route req = RouteVulnerability)) \/
  ((code = 404%Z \/ code = 403%Z) /\ route req = RouteVulnerability).
Proof.
  unfold view. destruct (route req) eqn:Hroute.
  - discriminate.
  - discriminate.
  - destruct (query_handler_cases E ds req)
      as [(s & _ & _ & Hq) | (page & q & _ & _ & [(t & i & Hok) | Hbad])].
    + now rewrite Hq.
    + now rewrite Hok.
    + now rewrite Hbad.
  - unfold package_handler.
    destruct (Py.get "package" (args req)) as [p|];
      [|intros [= <-]; left; split; [reflexivity | now left]].
    destruct (p =? ""); [intros [= <-]; left; split; [reflexivity | now left]|].
    destruct (Py.split1 "/" p) as [|a [|b [|c l]]]; try discriminate;
      intros [= <-]; left; split; try reflexivity; now left.
  - unfold vulnerability_handler.
    destruct (Py.get "id" (args req)) as [v|];
      [|intros [= <-]; left; split; [reflexivity | now right]].
    destruct (v =? ""); [intros [= <-]; left; split; [reflexivity | now right]|].
    cbn [bind call app].
    destruct (Ndb.get_by_id ds v) as [bug|];
      [|intros [= <-]; right; split; [now left | reflexivity]].
    destruct (BugStatus_eqb (status bug) UNPROCESSED);
      [intros [= <-]; right; split; [now left | reflexivity]|].
    destruct (negb (public bug)); [|discriminate].
    intros [= <-]. right. split; [now right | reflexivity].
Qed.

(** The status codes a request can be aborted with: 429 only in
    production and only when the limiter refuses the client; 400 only
    from the package lookup and the single-record fetch; 404 and 403
    only from the single-record fetch. No other code is ever used. *)
Theorem abort_codes (E : Env) (ds : Ndb.Datastore) (req : Request) (code : Z) :
  snd (handle_request E ds req) = Abort code ->
  (code = 429%Z /\ _is_prod E = true /\
   limiter_check_request E _REQUESTS_PER_MIN
     (headers_get "X-Appengine-User-Ip" (headers req) "unknown") = false) \/
  (code = 400%Z /\ (route req = RoutePackage \/ route req = RouteVulnerability)) \/
  ((code = 404%Z \/ code = 403%Z) /\ route req = RouteVulnerability).
Proof.
  destruct (_is_prod E) eqn:Hprod.
  - rewrite (handle_request_prod E ds req Hprod). cbv zeta.
    destruct (limiter_check_request E _ _) eqn:Hc; cbn [snd].
    + intros H. right. now apply (view_aborts E ds).
    + intros [= <-]. left. now repeat split.
  - rewrite (handle_request_dev E ds req Hprod).
    intros H. right. now apply (view_aborts E ds).
Qed.

Lemma abort_codes_witness :
  (403 = 429 /\ _is_prod Sample.prod = true /\
   limiter_check_request Sample.prod _REQUESTS_PER_MIN
     (headers_get "X-Appengine-User-Ip" [] "unknown") = false)%Z \/
  (403 = 400 /\ (RouteVulnerability = RoutePackage \/
                 RouteVulnerability = RouteVulnerability))%Z \/
  ((403 = 404 \/ 403 = 403)%Z /\ RouteVulnerability = RouteVulnerability).
Proof.
  exact (abort_codes Sample.prod Sample.ds
           (Sample.request RouteVulnerability [("id", "OSV-2020-5")] [])
           403 eq_refl).
Defined.

(** ** Searching *)

Lemma page_param_args (E : Env) (req1 req2 : Request) (page : Z) :
  Py.get "page" (args req1) = Py.get "page" (args req2) ->
  page_param E req1 page -> page_param E req2 page.
Proof. unfold page_param. now intros <-. Qed.

Lemma query_handler_same_query (E : Env) (ds : Ndb.Datastore)
  (req1 req2 : Request) :
  Py.get "page" (args req1) = Py.get "page" (args req2) ->
  built_query E req1 = built_query E req2 ->
  query_handler E ds req1 = query_handler E ds req2.
Proof.
  intros Hpage Hq.
  destruct (Py.get "page" (args req1)) as [s|] eqn:Hs.
  - destruct (Py.int (python E) s) as [n|] eqn:Hn.
    + assert (Hp : page_param E req1 n) by (right; now exists s).
      rewrite (query_handler_page E ds req1 n Hp).
      rewrite (query_handler_page E ds req2 n); [now rewrite Hq|].
      apply (page_param_args E req1); [congruence | exact Hp].
    + rewrite (query_handler_bad_page E ds req1 s Hs Hn).
      now rewrite (query_handler_bad_page E ds req2 s (eq_sym Hpage) Hn).
  - assert (Hp : page_param E req1 1) by now left.
    rewrite (query_handler_page E ds req1 1 Hp).
    rewrite (query_handler_page E ds req2 1); [now rewrite Hq|].
    apply (page_param_args E req1); [congruence | exact Hp].
Qed.

(** The search token is matched without regard to case: two requests
    with non-empty search tokens that have the same lower-case form,
    and that agree otherwise, get the same answer. *)
Theorem query_search_ignores_case (E : Env) (ds : Ndb.Datastore)
  (req1 req2 : Request) (s1 s2 t : string) :
  Py.get "search" (args req1) = Some s1 -> s1 <> "" ->
  Py.get "search" (args req2) = Some s2 -> s2 <> "" ->
  lowercased (python E) s1 t -> lowercased (python E) s2 t ->
  Py.get "page" (args req1) = Py.get "page" (args req2) ->
  Py.get "affected_only" (args req1) = Py.get "affected_only" (args req2) ->
  Py.get "ecosystem" (args req1) = Py.get "ecosystem" (args req2) ->
  query_handler E ds req1 = query_handler E ds req2.
Proof.
  intros H1 Hn1 H2 Hn2 Hl1 Hl2 Hp Ha He.
  apply query_handler_same_query; [exact Hp|].
  apply str_lower_lowercased in Hl1, Hl2.
  unfold built_query. rewrite H1, H2, Ha, He, <- Hl1, <- Hl2.
  destruct (String.eqb_spec s1 ""); [contradiction|].
  destruct (String.eqb_spec s2 ""); [contradiction|]. reflexivity.
Qed.

Lemma query_search_ignores_case_witness :
  query_handler Sample.dev Sample.ds
    (Sample.request RouteQuery [("search", Sample.ECLAIR)] []) =
  query_handler Sample.dev Sample.ds
    (Sample.request RouteQuery [("search", Sample.eclair)] []) /\
  query_handler Sample.dev Sample.ds
    (Sample.request RouteQuery [("search", "OSV-2020-1")] []) =
  query_handler Sample.dev Sample.ds
    (Sample.request RouteQuery [("search", "osv-2020-1")] []).
Proof.
  split.
  - apply (query_search_ignores_case Sample.dev Sample.ds _ _
             Sample.ECLAIR Sample.eclair Sample.eclair);
      try reflexivity; try discriminate.
  - apply (query_search_ignores_case Sample.dev Sample.ds _ _
             "OSV-2020-1" "osv-2020-1" "osv-2020-1");
      try reflexivity; try discriminate;
      unfold lowercased; cbn [Py.isascii]; simpl;
      repeat (constructor; [reflexivity|]); constructor.
Defined.

(** ** Paging through a result *)

Lemma firstn_plus {A} (a b : nat) (l : list A) :
  firstn (a + b) l = firstn a l ++ firstn b (skipn a l).
Proof.
  revert l. induction a as [|a IH]; intros l; simpl; [reflexivity|].
  destruct l as [|x l]; simpl; [now destruct b | now rewrite IH].
Qed.

Lemma slices_tile {A} (n k : nat) (l : list A) :
  flat_map (fun p => firstn n (skipn (n * (p - 1)) l)) (seq 1 k)
  = firstn (n * k) l.
Proof.
  induction k as [|k IH].
  - rewrite Nat.mul_0_r. reflexivity.
  - rewrite seq_S, flat_map_app, IH. simpl flat_map. rewrite app_nil_r.
    rewrite Nat.sub_0_r.
    replace (n * S k)%nat with (n * k + n)%nat by lia.
    now rewrite firstn_plus.
Qed.

Lemma flat_map_map_out {A B C} (f : B -> C) (g : A -> list B) (l : list A) :
  flat_map (fun p => map f (g p)) l = map f (flat_map g l).
Proof.
  induction l as [|x l IH]; simpl; [reflexivity|].
  now rewrite IH, map_app.
Qed.

Lemma flat_map_ext_in {A B} (f g : A -> list B) (l : list A) :
  (forall x, In x l -> f x = g x) -> flat_map f l = flat_map g l.
Proof.
  induction l as [|x l IH]; simpl; [reflexivity|].
  intros H. rewrite (H x (or_introl eq_refl)), IH; [reflexivity|].
  intros y Hy. apply H. now right.
Qed.

(** Pages 1 to [k] of one search, put end to end, are the first
    [16 * k] records of its ordered result, each once and in order; once
    [16 * k] reaches the total they are the whole result. *)
Theorem query_pages_tile (E : Env) (ds : Ndb.Datastore) (reqs : nat -> Request)
  (q : Ndb.Query) (k : nat) :
  (forall p, (1 <= p <= k)%nat ->
             page_param E (reqs p) (Z.of_nat p) /\ built_query E (reqs p) = q) ->
  flat_map (fun p => items_of (query_handler E ds (reqs p))) (seq 1 k)
  = map (fun bug => bug_to_response E bug false)
        (firstn (16 * k) (Ndb.results ds q)) /\
  ((List.length (Ndb.results ds q) <= 16 * k)%nat ->
   flat_map (fun p => items_of (query_handler E ds (reqs p))) (seq 1 k)
   = map (fun bug => bug_to_response E bug false) (Ndb.results ds q)).
Proof.
  intros H.
  assert (Hall :
    flat_map (fun p => items_of (query_handler E ds (reqs p))) (seq 1 k)
    = map (fun bug => bug_to_response E bug false)
          (firstn (16 * k) (Ndb.results ds q))).
  { rewrite <- slices_tile, <- flat_map_map_out.
    apply flat_map_ext_in. intros p Hp. apply in_seq in Hp.
    destruct (H p) as (Hpage & Hq); [lia|].
    unfold items_of. rewrite (query_handler_page E ds (reqs p) _ Hpage), Hq.
    rewrite (fetch_page_from ds q (Z.of_nat p)) by lia. cbn [snd].
    do 3 f_equal. unfold _PAGE_SIZE. lia. }
  split; [exact Hall|].
  intros Hk. rewrite Hall. now rewrite firstn_all2.
Qed.

Lemma query_pages_tile_witness :
  flat_map (fun p => items_of
                       (query_handler Sample.dev Sample.ds
                          (Sample.request RouteQuery
                             [("page", if (p =? 1)%nat then "1" else "2")] [])))
           (seq 1 2)
  = map (fun bug => bug_to_response Sample.dev bug false)
        (Ndb.results Sample.ds
           (built_query Sample.dev (Sample.request RouteQuery [] []))).
Proof.
  refine (proj2 (query_pages_tile Sample.dev Sample.ds
                   (fun p => Sample.request RouteQuery
                               [("page", if (p =? 1)%nat then "1" else "2")] [])
                   (built_query Sample.dev (Sample.request RouteQuery [] [])) 2 _) _).
  - intros p Hp. assert (Hc : p = 1%nat \/ p = 2%nat) by lia.
    destruct Hc as [-> | ->]; (split; [|reflexivity]); right;
      [exists "1" | exists "2"]; split; reflexivity.
  - vm_compute. lia.
Defined.

(** ** The ecosystem listing depends on the set of ecosystems only *)

Lemma ecosystem_names_spec (ds : Ndb.Datastore) (names : list string) :
  snd (ecosystems_handler ds) = Ok (JsonEcosystems names) ->
  StronglySorted string_le names /\ NoDup names /\
  forall s, In s names <->
            s <> "" /\ exists b, In b (Ndb.all_bugs ds) /\ ecosystem b = Some s.
Proof.
  cbn. intros [= <-]. split; [apply sorted_strings|]. split.
  - eapply Permutation_NoDup; [symmetry; apply sorted_Permutation|].
    apply NoDup_named, NoDup_nodup.
  - intros s. rewrite sorted_In, in_flat_map. split.
    + intros (e & He & Hs). unfold Ndb.distinct_ecosystems in He.
      apply nodup_In, in_map_iff in He. destruct He as (b & Hb & Hin).
      destruct e as [s'|]; [|contradiction].
      destruct (String.eqb_spec s' ""); [contradiction|].
      destruct Hs as [->|[]]. split; [assumption|]. now exists b.
    + intros (Hne & b & Hin & Hb). exists (Some s). split.
      * unfold Ndb.distinct_ecosystems. apply nodup_In, in_map_iff. now exists b.
      * destruct (String.eqb_spec s ""); [contradiction | now left].
Qed.

Lemma sorted_nodup_unique (l1 l2 : list string) :
  StronglySorted string_le l1 -> StronglySorted string_le l2 ->
  NoDup l1 -> NoDup l2 ->
  (forall x, In x l1 <-> In x l2) -> l1 = l2.
Proof.
  revert l2. induction l1 as [|x l1 IH]; intros [|y l2] S1 S2 N1 N2 Hin.
  - reflexivity.
  - exfalso. apply (proj2 (Hin y)). now left.
  - exfalso. apply (proj1 (Hin x)). now left.
  - apply StronglySorted_inv in S1. destruct S1 as (S1 & Hx).
    apply StronglySorted_inv in S2. destruct S2 as (S2 & Hy).
    rewrite Forall_forall in Hx, Hy.
    inversion N1 as [|? ? Nx N1']; subst. inversion N2 as [|? ? Ny N2']; subst.
    assert (Hxy : x = y).
    { destruct (proj1 (Hin x) (or_introl eq_refl)) as [Heq | Hx2]; [now symmetry|].
      destruct (proj2 (Hin y) (or_introl eq_refl)) as [Heq | Hy1]; [exact Heq|].
      apply String.leb_antisym; [apply Hx, Hy1 | apply Hy, Hx2]. }
    subst y. f_equal. apply IH; try assumption.
    intros z. split; intros Hz.
    + destruct (proj1 (Hin z) (or_intror Hz)) as [-> | H]; [contradiction | exact H].
    + destruct (proj2 (Hin z) (or_intror Hz)) as [-> | H]; [contradiction | exact H].
Qed.

(** Two stores that hold the same ecosystems (in whatever records, in
    whatever order, however often) get the same ecosystem listing. *)
Theorem ecosystems_handler_set_only (ds1 ds2 : Ndb.Datastore) :
  (forall s, (exists b, In b (Ndb.all_bugs ds1) /\ ecosystem b = Some s) <->
             (exists b, In b (Ndb.all_bugs ds2) /\ ecosystem b = Some s)) ->
  ecosystems_handler ds1 = ecosystems_handler ds2.
Proof.
  intros H.
  destruct (ecosystem_names_spec ds1 _ eq_refl) as (S1 & N1 & M1).
  destruct (ecosystem_names_spec ds2 _ eq_refl) as (S2 & N2 & M2).
  unfold ecosystems_handler. cbn [bind call ret app].
  do 3 f_equal. apply sorted_nodup_unique; try assumption.
  intros s. rewrite M1, M2, H. reflexivity.
Qed.

Ltac pick_record l :=
  lazymatch l with
  | ?x :: ?rest =>
      first [ exists x; split; [cbn; tauto | reflexivity] | pick_record rest ]
  end.

Lemma ecosystems_handler_set_only_witness :
  ecosystems_handler Sample.ds =
  ecosystems_handler
    {| Ndb.all_bugs :=
         [ Sample.bug "A" INVALID false (Some "npm") 1;
           Sample.bug "B" PROCESSED true (Some "Go") 2;
           Sample.bug "C" PROCESSED true (Some "PyPI") 3 ];
       Ndb.all_package_tag_infos := [] |}.
Proof.
  apply ecosystems_handler_set_only. intros s. split.
  - intros (b & Hb & Hs). cbn in Hb.
    destruct Hb as [<-|[<-|[<-|[<-|[<-|[]]]]]]; cbn in Hs; injection Hs as <-;
      pick_record [ Sample.bug "A" INVALID false (Some "npm") 1;
                    Sample.bug "B" PROCESSED true (Some "Go") 2;
                    Sample.bug "C" PROCESSED true (Some "PyPI") 3 ].
  - intros (b & Hb & Hs). cbn in Hb.
    destruct Hb as [<-|[<-|[<-|[]]]]; cbn in Hs; injection Hs as <-;
      pick_record [ Sample.bug "OSV-2020-1" PROCESSED true (Some "PyPI") 30;
                    Sample.bug "OSV-2020-2" PROCESSED true (Some "npm") 50;
                    Sample.bug "OSV-2020-3" UNPROCESSED true (Some "Go") 70 ].
Defined.
